(** * aidoccli: the JSDoc builder (src/jsdoc/builder.js)

    A shallow embedding of the three exported operations of the builder,
    [getJSDocBlocks], [updateJSDocBlock] and [buildJSDocLines], together with
    the tag table [MANAGED_JSDOC_TAGS] they consult, and the properties of
    the reconciliation that the design document lists.

    JavaScript strings are modelled as [string], read as sequences of code
    units below 256.  The [Map] of parsed tags is a [gmap] from tag names to
    the entries collected under that name. *)

From Stdlib Require Import Ascii ZArith Bool Lia.
From stdpp Require Import gmap strings list fin_maps.

Local Open Scope Z_scope.

(** ** String primitives of the host language *)

Module Js.

Definition nl : string := String "010"%char EmptyString.

(** White space as [String.prototype.trim] sees it, for code units below
    256: TAB, LF, VT, FF, CR, SPACE and NBSP. *)
Definition isWhiteSpace (c : ascii) : bool :=
  match c with
  | "009"%char | "010"%char | "011"%char | "012"%char | "013"%char
  | " "%char | "160"%char => true
  | _ => false
  end.

Definition isEmpty (s : string) : bool :=
  match s with EmptyString => true | String _ _ => false end.

Fixpoint trimStart (s : string) : string :=
  match s with
  | EmptyString => EmptyString
  | String c r => if isWhiteSpace c then trimStart r else s
  end.

Fixpoint trimEnd (s : string) : string :=
  match s with
  | EmptyString => EmptyString
  | String c r =>
      let r' := trimEnd r in
      if isWhiteSpace c && isEmpty r' then EmptyString else String c r'
  end.

Definition trim (s : string) : string := trimEnd (trimStart s).

(** [startsWith s p] is [s.startsWith(p)]. *)
Fixpoint startsWith (s p : string) {struct p} : bool :=
  match p with
  | EmptyString => true
  | String b p' =>
      match s with
      | EmptyString => false
      | String a s' => Ascii.eqb a b && startsWith s' p'
      end
  end.

(** [includes s sub] is [s.includes(sub)]. *)
Fixpoint includes (s sub : string) {struct s} : bool :=
  startsWith s sub ||
  match s with
  | EmptyString => false
  | String _ r => includes r sub
  end.

Fixpoint indexOfFrom (i : Z) (s sub : string) {struct s} : Z :=
  if startsWith s sub then i
  else match s with
       | EmptyString => -1
       | String _ r => indexOfFrom (i + 1) r sub
       end.

(** [indexOf s sub] is [s.indexOf(sub)], [-1] when [sub] does not occur. *)
Definition indexOf (s sub : string) : Z := indexOfFrom 0 s sub.

Definition strLength (s : string) : Z := Z.of_nat (String.length s).

Fixpoint dropChars (n : nat) (s : string) : string :=
  match n, s with
  | O, _ => s
  | S _, EmptyString => EmptyString
  | S k, String _ r => dropChars k r
  end.

(** [substring start s] is [s.substring(start)]: a negative start counts
    as 0, a start past the end gives the empty string. *)
Definition substring (start : Z) (s : string) : string :=
  dropChars (Z.to_nat (Z.max 0 start)) s.

(** [split sep s] is [s.split(sep)] for a one-character separator; the
    result always has at least one element. *)
Fixpoint split (sep : ascii) (s : string) : list string :=
  match s with
  | EmptyString => [EmptyString]
  | String c r =>
      if Ascii.eqb c sep then EmptyString :: split sep r
      else match split sep r with
           | [] => [String c EmptyString]
           | h :: t => String c h :: t
           end
  end.

(** [join sep l] is [l.join(sep)]. *)
Fixpoint join (sep : string) (l : list string) : string :=
  match l with
  | [] => EmptyString
  | [x] => x
  | x :: t => x +:+ sep +:+ join sep t
  end.

(** The array element [a[0]] of the first segment of a split. *)
Definition first (l : list string) : string :=
  match l with [] => EmptyString | x :: _ => x end.

(** [a.slice(1)]. *)
Definition slice1 {A} (l : list A) : list A :=
  match l with [] => [] | _ :: t => t end.

(** Length of the match of the pattern
    [```(?:javascript|typescript)?\n|\n```] anchored at the head of [s],
    0 when it does not match there.  The alternatives start with
    different characters, so at most one of them applies. *)
Definition fenceMatch (s : string) : nat :=
  if startsWith s ("```javascript" +:+ nl) then 14%nat
  else if startsWith s ("```typescript" +:+ nl) then 14%nat
  else if startsWith s ("```" +:+ nl) then 4%nat
  else if startsWith s (nl +:+ "```") then 4%nat
  else 0%nat.

(** Left-to-right scan of a global replace by the empty string: [skip]
    counts the characters of a match still to be dropped. *)
Fixpoint replaceFences (skip : nat) (s : string) : string :=
  match s with
  | EmptyString => EmptyString
  | String c r =>
      match skip with
      | S k => replaceFences k r
      | O =>
          match fenceMatch s with
          | O => String c (replaceFences 0 r)
          | S k => replaceFences k r
          end
      end
  end.

(** [s.replace(/```(?:javascript|typescript)?\n|\n```/g, '')]. *)
Definition stripFences (s : string) : string := replaceFences 0 s.

End Js.

Export Js.

(** ** Data model *)

(** A comment of the syntax tree: its kind and its text without the
    delimiters. *)
Inductive CommentType := CommentBlock | CommentLine.

Record Comment := { c_type : CommentType; c_value : string }.

Record Param := { p_name : string; p_type : string; p_description : string }.

Record Returns := { r_type : string; r_description : string }.

Record Throw := { t_description : string }.

(** The inferred metadata.  Top-level properties may be missing ([None]);
    the nested records carry strings, an empty string being the falsy one. *)
Record InferredJSDoc := {
  name : option string;
  functionName : option string;
  description : option string;
  params : option (list Param);
  returns : option Returns;
  throws : option (list Throw);
  examples : option (list string);
  constructorDescription : option string;
  constructorParams : option (list Param);
  extendsClass : option string
}.

(** Truthiness of a string and of an optional string property. *)
Definition truthyStr (s : string) : bool := negb (isEmpty s).

Definition truthy (o : option string) : bool :=
  match o with Some s => truthyStr s | None => false end.

(** [a?.length] used as a condition. *)
Definition hasLength {A} (o : option (list A)) : bool :=
  match o with Some (_ :: _) => true | _ => false end.

(** [a?.forEach(f)] pushing one line per element. *)
Definition forEach {A B} (o : option (list A)) (f : A -> list B) : list B :=
  match o with Some l => concat (map f l) | None => [] end.

(** ** Tag vocabulary *)

(** The managed names, as jsdocGenerator.js declares the table; the builder
    imports the table of this name from its constants module. *)
Definition MANAGED_JSDOC_TAGS : list string :=
  ["param"; "returns"; "throws"; "example"; "class"; "description"].

Definition has (set : list string) (x : string) : bool :=
  existsb (String.eqb x) set.

(** ** Parsing the existing lines *)

Record TagEntry := { originalLine : string; content : string }.

Record ParseState := {
  existingTags : gmap string (list TagEntry);
  mainDescription : string;
  foundMainDescription : bool
}.

Definition initialState : ParseState :=
  {| existingTags := ∅; mainDescription := ""; foundMainDescription := false |}.

(** [if (!m.has(k)) m.set(k, []); m.get(k).push(e)] *)
Definition pushEntry (k : string) (e : TagEntry)
    (m : gmap string (list TagEntry)) : gmap string (list TagEntry) :=
  <[k := default [] (m !! k) ++ [e]]> m.

(** Name under which a tag line is filed, after the alias. *)
Definition tagNameOf (trimmedLine : string) : string :=
  let parts := split " " trimmedLine in
  let tagName := substring 1 (first parts) in
  if String.eqb tagName "return" then "returns" else tagName.

Definition tagContentOf (trimmedLine : string) : string :=
  let parts := split " " trimmedLine in
  trim (join " " (slice1 parts)).

(** One iteration of the loop over the existing lines.  The warning printed
    for names outside the known vocabulary does not change the state. *)
Definition parseLine (st : ParseState) (line : string) : ParseState :=
  let trimmedLine := trim line in
  if startsWith trimmedLine "@" then
    let tagName := tagNameOf trimmedLine in
    let tagContent := tagContentOf trimmedLine in
    let entry := {| originalLine := trimmedLine; content := tagContent |} in
    if has MANAGED_JSDOC_TAGS tagName then
      {| existingTags := pushEntry tagName entry (existingTags st);
         mainDescription := mainDescription st;
         foundMainDescription := foundMainDescription st |}
    else
      {| existingTags := pushEntry "other" entry (existingTags st);
         mainDescription := mainDescription st;
         foundMainDescription := foundMainDescription st |}
  else if negb (isEmpty trimmedLine) && negb (foundMainDescription st) then
    {| existingTags := existingTags st;
       mainDescription :=
         if isEmpty (mainDescription st) then trimmedLine
         else mainDescription st +:+ nl +:+ trimmedLine;
       foundMainDescription := foundMainDescription st |}
  else st.

Definition parseExisting (existingJSDocLines : list string) : ParseState :=
  fold_left parseLine existingJSDocLines initialState.

(** ** Reconciliation: the sections of the output, in order *)

Definition placeholderDesc : string := "Description placeholder.".
Definition constructorDescPlaceholder : string :=
  "Initializes a new instance of the class.".
Definition placeholderReturnsDesc : string := "The result of the operation.".

(** [`The ${type} value of ${name}.`] *)
Definition placeholderParamDesc (param : Param) : string :=
  "The " +:+ p_type param +:+ " value of " +:+ p_name param +:+ ".".

(** [`{${type}} ${name}`] *)
Definition paramSignature (param : Param) : string :=
  "{" +:+ p_type param +:+ "} " +:+ p_name param.

(** [`@param {${type}} ${name} - ${description}`] *)
Definition canonicalParamLine (param : Param) : string :=
  "@param " +:+ paramSignature param +:+ " - " +:+ p_description param.

(** [group[0]]: a group is created by the push of its first entry, so the
    index is always in range (see [parse_groups_nonempty]). *)
Definition entry0 (group : list TagEntry) : TagEntry :=
  hd {| originalLine := ""; content := "" |} group.

(** The text of an existing parameter entry after the parameter's name. *)
Definition afterName (param : Param) (e : TagEntry) : string :=
  trim (substring (indexOf (content e) (p_name param) + strLength (p_name param))
          (content e)).

Section Sections.

Variable tags : gmap string (list TagEntry).
Variable mainDesc : string.
Variable inferredJSDoc : InferredJSDoc.

(** 1. Main description *)
Definition descriptionLines : list string :=
  let existingMainDescriptionIsPlaceholder :=
    isEmpty mainDesc || includes mainDesc placeholderDesc in
  match description inferredJSDoc with
  | Some d =>
      if truthyStr d && negb (String.eqb d placeholderDesc) then
        if negb existingMainDescriptionIsPlaceholder then [mainDesc] else [d]
      else if negb (isEmpty mainDesc) then [mainDesc] else []
  | None => if negb (isEmpty mainDesc) then [mainDesc] else []
  end.

(** The blank line after the description; [updatedLines] is what has
    been pushed so far. *)
Definition separatorLines (updatedLines : list string) : list string :=
  if (0 <? Z.of_nat (List.length updatedLines)) &&
     (hasLength (params inferredJSDoc)
      || match returns inferredJSDoc with
         | Some r => truthyStr (r_type r)
         | None => false
         end
      || hasLength (throws inferredJSDoc)
      || hasLength (examples inferredJSDoc)
      || (0 <? Z.of_nat (size tags)))
  then [""] else [].

(** 2. Class-specific tags *)
Definition classLines : list string :=
  if truthy (name inferredJSDoc) then
    (match tags !! "class" with
     | None => ["@class"]
     | Some group => [originalLine (entry0 group)]
     end)
    ++
    (match extendsClass inferredJSDoc with
     | Some ext =>
         if truthyStr ext then
           let existingExtends :=
             match tags !! "augments" with
             | Some group => Some group
             | None => tags !! "extends"
             end in
           match existingExtends with
           | None => ["@augments " +:+ ext]
           | Some group =>
               if existsb (fun e => negb (String.eqb (content e) ext)) group
               then ["@augments " +:+ ext]
               else [originalLine (entry0 group)]
           end
         else []
     | None => []
     end)
  else [].

Definition constructorParamLine (param : Param) : list string :=
  let existingParam :=
    tags !! "param" ≫=
      List.find (fun p => startsWith (content p) (paramSignature param)) in
  match existingParam with
  | Some e =>
      if negb (String.eqb (content e) (placeholderParamDesc param)) then
        ["@param " +:+ paramSignature param +:+ " " +:+ afterName param e]
      else [canonicalParamLine param]
  | None => [canonicalParamLine param]
  end.

(** 3. Constructor-specific tags *)
Definition constructorLines : list string :=
  match constructorDescription inferredJSDoc with
  | Some cd =>
      if truthyStr cd then
        let existingConsDesc :=
          tags !! "constructor" ≫=
            List.find
              (fun tag =>
                 negb (String.eqb (content tag) constructorDescPlaceholder)) in
        (match existingConsDesc with
         | Some e => ["@constructor " +:+ content e]
         | None =>
             if truthyStr cd && negb (String.eqb cd constructorDescPlaceholder)
             then ["@constructor " +:+ cd]
             else match tags !! "constructor" with
                  | Some group => [originalLine (entry0 group)]
                  | None => []
                  end
         end)
        ++
        (if hasLength (constructorParams inferredJSDoc)
         then forEach (constructorParams inferredJSDoc) constructorParamLine
         else [])
      else []
  | None => []
  end.

Definition paramLine (param : Param) : list string :=
  let existingParam :=
    tags !! "param" ≫=
      List.find (fun p => includes (content p) (paramSignature param)) in
  match existingParam with
  | Some e =>
      let isExistingParamPlaceholder :=
        includes (content e) (placeholderParamDesc param) in
      if negb isExistingParamPlaceholder then
        let originalDescription := afterName param e in
        let originalDescription :=
          if startsWith originalDescription "-"
          then trim (substring 1 originalDescription)
          else originalDescription in
        ["@param " +:+ paramSignature param +:+ " - " +:+ originalDescription]
      else [canonicalParamLine param]
  | None => [canonicalParamLine param]
  end.

(** 4. Parameters *)
Definition paramLines : list string :=
  forEach (params inferredJSDoc) paramLine.

(** 5. Returns *)
Definition returnsLines : list string :=
  match returns inferredJSDoc with
  | Some r =>
      if truthyStr (r_type r) && negb (String.eqb (r_type r) "void") then
        let existingReturns :=
          tags !! "returns" ≫=
            List.find
              (fun tag =>
                 negb (String.eqb (content tag) placeholderReturnsDesc)) in
        match existingReturns with
        | Some e =>
            if negb (isEmpty (content e)) &&
               negb (String.eqb (content e) placeholderReturnsDesc)
            then ["@returns {" +:+ r_type r +:+ "} " +:+ content e]
            else ["@returns {" +:+ r_type r +:+ "} " +:+ r_description r]
        | None => ["@returns {" +:+ r_type r +:+ "} " +:+ r_description r]
        end
      else []
  | None => []
  end.

Definition throwLine (thr : Throw) : list string :=
  let existingThrow :=
    tags !! "throws" ≫=
      List.find (fun t => includes (content t) (t_description thr)) in
  match existingThrow with
  | None => ["@throws {Error} " +:+ t_description thr]
  | Some e => [originalLine e]
  end.

(** 6. Throws *)
Definition throwsLines : list string :=
  forEach (throws inferredJSDoc) throwLine.

Definition exampleLine (example : string) : list string :=
  let cleanedExample := trim (stripFences example) in
  let exists_ :=
    match tags !! "example" with
    | Some group =>
        existsb
          (fun ex =>
             String.eqb (trim (stripFences (content ex))) cleanedExample)
          group
    | None => false
    end in
  if negb exists_ && includes example "```"
  then ["@example " +:+ example] else [].

(** 7. Examples *)
Definition exampleLines : list string :=
  forEach (examples inferredJSDoc) exampleLine.

(** 8. Other existing tags *)
Definition otherLines : list string :=
  match tags !! "other" with
  | Some group => map originalLine group
  | None => []
  end.

End Sections.

(** The reconciliation of the existing lines with the inferred metadata. *)
Definition updateJSDocBlock (existingJSDocLines : list string)
    (inferredJSDoc : InferredJSDoc) : list string :=
  let st := parseExisting existingJSDocLines in
  let existingTags := existingTags st in
  let mainDescription := mainDescription st in
  let updatedLines := [] in
  let updatedLines :=
    updatedLines ++ descriptionLines mainDescription inferredJSDoc in
  let updatedLines :=
    updatedLines ++ separatorLines existingTags inferredJSDoc updatedLines in
  let updatedLines := updatedLines ++ classLines existingTags inferredJSDoc in
  let updatedLines :=
    updatedLines ++ constructorLines existingTags inferredJSDoc in
  let updatedLines := updatedLines ++ paramLines existingTags inferredJSDoc in
  let updatedLines := updatedLines ++ returnsLines existingTags inferredJSDoc in
  let updatedLines := updatedLines ++ throwsLines existingTags inferredJSDoc in
  let updatedLines := updatedLines ++ exampleLines existingTags inferredJSDoc in
  let updatedLines := updatedLines ++ otherLines existingTags in
  updatedLines.

(** ** Building a block from the metadata alone *)

(** [if (o) push(f(o))] for an optional string property. *)
Definition whenTruthy {B} (o : option string) (f : string -> list B) : list B :=
  match o with
  | Some s => if truthyStr s then f s else []
  | None => []
  end.

(** The array holds what was pushed: the description is pushed as it is, so
    a missing one leaves [undefined] ([None]) in the first slot. *)
Definition buildJSDocLines (inferredJSDoc : InferredJSDoc)
    : list (option string) :=
  let lines := [] in
  if truthy (name inferredJSDoc) then
    let lines := lines ++ [description inferredJSDoc] in
    let lines := lines ++ [Some "@class"] in
    let lines :=
      lines ++ whenTruthy (extendsClass inferredJSDoc)
                 (fun ext => [Some ("@augments " +:+ ext)]) in
    let lines :=
      lines ++
      (if hasLength (examples inferredJSDoc) then
         Some "" ::
         forEach (examples inferredJSDoc) (fun ex => [Some ("@example " +:+ ex)])
       else []) in
    let lines :=
      lines ++ whenTruthy (constructorDescription inferredJSDoc)
                 (fun cd =>
                    Some ("@constructor " +:+ cd) ::
                    forEach (constructorParams inferredJSDoc)
                      (fun param => [Some (canonicalParamLine param)])) in
    lines
  else
    let lines := lines ++ [description inferredJSDoc] in
    let lines :=
      lines ++
      (if hasLength (params inferredJSDoc) then
         Some "" ::
         forEach (params inferredJSDoc)
           (fun param => [Some (canonicalParamLine param)])
       else []) in
    let lines :=
      lines ++
      (match returns inferredJSDoc with
       | Some r =>
           if truthyStr (r_type r) && negb (String.eqb (r_type r) "void")
           then [Some ("@returns {" +:+ r_type r +:+ "} " +:+ r_description r)]
           else []
       | None => []
       end) in
    let lines :=
      lines ++
      (if hasLength (throws inferredJSDoc) then
         forEach (throws inferredJSDoc)
           (fun thr => [Some ("@throws {Error} " +:+ t_description thr)])
       else []) in
    let lines :=
      lines ++
      (if hasLength (examples inferredJSDoc) then
         forEach (examples inferredJSDoc) (fun ex => [Some ("@example " +:+ ex)])
       else []) in
    lines.

(** ** Extracting the existing block *)

(** The clean-up of one physical line of the comment text. *)
Definition cleanLine (line : string) : string :=
  let line := trim line in
  if startsWith line "*" then trim (substring 1 line) else line.

Definition isJSDocComment (comment : Comment) : bool :=
  match c_type comment with
  | CommentBlock => startsWith (c_value comment) "*"
  | CommentLine => false
  end.

(** [lines.shift()] when the first line is empty. *)
Definition dropLeadingEmpty (lines : list string) : list string :=
  match lines with
  | l :: rest => if isEmpty l then rest else lines
  | [] => lines
  end.

(** [lines.pop()] when the last line is the end marker. *)
Definition dropEndMarker (lines : list string) : list string :=
  match last lines with
  | Some l =>
      if String.eqb l "*/" || String.eqb l "/" then removelast lines else lines
  | None => lines
  end.

(** The lines of a documentation comment, from its text. *)
Definition normalizeComment (value : string) : list string :=
  let lines := map cleanLine (split "010" value) in
  let lines := dropLeadingEmpty lines in
  let lines := dropEndMarker lines in
  lines.

(** [None] is [null]; the argument is [None] when no comment list is
    attached to the node. *)
Definition getJSDocBlocks (comments : option (list Comment))
    : option (list string) :=
  match comments with
  | None | Some [] => None
  | Some comments =>
      match List.find isJSDocComment comments with
      | None => None
      | Some jsdocComment => Some (normalizeComment (c_value jsdocComment))
      end
  end.

(** ** Vocabulary of the statements *)

(** How the parser reads a line: the name it files a tag line under. *)
Definition tagOfLine (line : string) : option string :=
  let trimmedLine := trim line in
  if startsWith trimmedLine "@" then Some (tagNameOf trimmedLine) else None.

Definition isManagedTagLine (line : string) : bool :=
  match tagOfLine line with
  | Some tagName => has MANAGED_JSDOC_TAGS tagName
  | None => false
  end.

Definition isUnmanagedTagLine (line : string) : bool :=
  match tagOfLine line with
  | Some tagName => negb (has MANAGED_JSDOC_TAGS tagName)
  | None => false
  end.

(** A class marker: a line the parser files under [class]. *)
Definition isClassMarker (line : string) : bool :=
  match tagOfLine line with
  | Some tagName => String.eqb tagName "class"
  | None => false
  end.

Definition isClassMarkerSlot (slot : option string) : bool :=
  match slot with Some line => isClassMarker line | None => false end.

(** The key of the map under which the parser files a trimmed tag line. *)
Definition fileKey (trimmedLine : string) : string :=
  if has MANAGED_JSDOC_TAGS (tagNameOf trimmedLine)
  then tagNameOf trimmedLine else "other".

(** The invariant of the map of parsed tags: no group is empty, and every
    entry sits under the key of its own line, which is a trimmed tag line. *)
Definition wellFiled (tags : gmap string (list TagEntry)) : Prop :=
  forall k group,
    tags !! k = Some group ->
    group <> []
    /\ Forall (fun e => trim (originalLine e) = originalLine e
                        /\ startsWith (originalLine e) "@" = true
                        /\ fileKey (originalLine e) = k) group.

(** A word without white space, such as a tag name. *)
Fixpoint noWhiteSpace (w : string) : bool :=
  match w with
  | EmptyString => true
  | String c r => negb (isWhiteSpace c) && noWhiteSpace r
  end.

(** The alias applied to tag names. *)
Definition aliasOf (tagName : string) : string :=
  if String.eqb tagName "return" then "returns" else tagName.

Definition notClass (line : string) : Prop := isClassMarker line = false.

(** The bare lines of a line list, as the parser sees them. *)
Definition isBareLine (line : string) : bool :=
  negb (startsWith (trim line) "@") && negb (isEmpty (trim line)).

(** Metadata of a function, as the inference engine shapes it. *)
Definition functionMetadata (fname : string) (desc : string)
    (ps : list Param) (r : Returns) (ths : list Throw) (exs : list string)
    : InferredJSDoc :=
  {| name := None; functionName := Some fname; description := Some desc;
     params := Some ps; returns := Some r; throws := Some ths;
     examples := Some exs; constructorDescription := None;
     constructorParams := None; extendsClass := None |}.

Definition noMetadata : InferredJSDoc :=
  {| name := None; functionName := None; description := None; params := None;
     returns := None; throws := None; examples := None;
     constructorDescription := None; constructorParams := None;
     extendsClass := None |}.

(** Inputs of the scenarios of the design document. *)
Definition scenarioA_existing : list string :=
  ["A human description."; "@param {string} name - The string value of name."].

Definition scenarioA_metadata : InferredJSDoc :=
  functionMetadata "greet" "AI text"
    [{| p_name := "name"; p_type := "string";
        p_description := "The full legal name." |}]
    {| r_type := "void"; r_description := "The result of the operation." |}
    [] [].

Definition scenarioC_metadata : InferredJSDoc :=
  {| name := Some "User"; functionName := None;
     description := Some "Represents a user."; params := None;
     returns := None; throws := None; examples := None;
     constructorDescription := Some "Creates a user.";
     constructorParams :=
       Some [{| p_name := "id"; p_type := "string";
                p_description := "The user ID." |}];
     extendsClass := None |}.

(** A function returning a number, with a generated returns text. *)
Definition addMetadata : InferredJSDoc :=
  functionMetadata "add" "Description placeholder." []
    {| r_type := "number"; r_description := "The sum." |} [] [].

(** A function without parameters that returns nothing. *)
Definition voidMetadata : InferredJSDoc :=
  functionMetadata "reset" "Description placeholder." []
    {| r_type := "void"; r_description := "The result of the operation." |}
    [] [].

(** A function whose generated example is a fenced block. *)
Definition exampleMetadata : InferredJSDoc :=
  functionMetadata "foo" "Description placeholder." []
    {| r_type := "void"; r_description := "The result of the operation." |}
    [] ["```javascript" +:+ nl +:+ "foo()" +:+ nl +:+ "```"].

(** ** The default parameter text of the inference engine *)

Definition getParamDescription (paramName inferredTypeString : string)
    : string :=
  if String.eqb paramName "options" && String.eqb inferredTypeString "object"
  then "Configuration options."
  else "The " +:+ inferredTypeString +:+ " value of " +:+ paramName +:+ ".".

(** ** Writing the block back to the node *)

(** The options of the command line that the per-node step reads; a flag
    that is not given is [false]. *)
Record Options := { onlyNew : bool; overwriteAllJsdoc : bool }.

(** [`*\n * ${newJSDocLines.join('\n * ')}\n `]; [join] renders an
    [undefined] element as the empty string. *)
Definition newCommentContent (newJSDocLines : list (option string)) : string :=
  "*" +:+ nl +:+ " * "
  +:+ join (nl +:+ " * ") (map (default "") newJSDocLines)
  +:+ nl +:+ " ".

(** [a.findIndex(f)], [None] standing for [-1]. *)
Fixpoint findIndex {A} (f : A -> bool) (l : list A) : option nat :=
  match l with
  | [] => None
  | x :: rest => if f x then Some O else S <$> findIndex f rest
  end.

(** The choice between reconciliation and fresh build; an array, even an
    empty one, is truthy. *)
Definition newJSDocLinesFor (existingJSDoc : option (list string))
    (options : Options) (inferredJSDoc : InferredJSDoc)
    : list (option string) :=
  match existingJSDoc with
  | Some existing =>
      if negb (overwriteAllJsdoc options)
      then Some <$> updateJSDocBlock existing inferredJSDoc
      else buildJSDocLines inferredJSDoc
  | None => buildJSDocLines inferredJSDoc
  end.

(** The body of the loop of [processFilesWithJSDoc] for one node, from the
    extraction of the existing block to the update of the node's leading
    comments; the inference result is given ([None]: nothing inferred).
    The result is the node's leading comments afterwards and whether the
    node was modified. *)
Definition processNode (options : Options)
    (leadingComments : option (list Comment))
    (inferredJSDoc : option InferredJSDoc) : option (list Comment) * bool :=
  let existingJSDoc := getJSDocBlocks leadingComments in
  if onlyNew options && bool_decide (is_Some existingJSDoc)
  then (leadingComments, false)
  else
    match inferredJSDoc with
    | None => (leadingComments, false)
    | Some inferredJSDoc =>
        let newJSDocLines :=
          newJSDocLinesFor existingJSDoc options inferredJSDoc in
        if (0 <? Z.of_nat (List.length newJSDocLines)) then
          let newComment :=
            {| c_type := CommentBlock;
               c_value := newCommentContent newJSDocLines |} in
          let comments := default [] leadingComments in
          match findIndex isJSDocComment comments with
          | Some existingJsdocIndex =>
              (Some (<[existingJsdocIndex := newComment]> comments), true)
          | None => (Some (newComment :: comments), true)
          end
        else (leadingComments, false)
    end.

(** ** Further vocabulary of the statements *)

(** A string without line feed. *)
Fixpoint noLineFeed (s : string) : bool :=
  match s with
  | EmptyString => true
  | String c r => negb (Ascii.eqb c "010") && noLineFeed r
  end.

(** The lines of the entries filed under a key. *)
Definition groupLines (tags : gmap string (list TagEntry)) (k : string)
    : list string :=
  match tags !! k with
  | Some group => map originalLine group
  | None => []
  end.

(** Whether the parser files a line under the key [k]. *)
Definition filedUnder (k : string) (line : string) : bool :=
  match tagOfLine line with
  | Some tagName =>
      String.eqb (if has MANAGED_JSDOC_TAGS tagName then tagName else "other") k
  | None => false
  end.

(** A line that is not blank. *)
Definition notBlank (line : string) : bool := negb (isEmpty (trim line)).

(** Whether an existing example entry has the normalized content of an
    example of the metadata. *)
Definition matchesExisting (tags : gmap string (list TagEntry))
    (example : string) : bool :=
  match tags !! "example" with
  | Some group =>
      existsb
        (fun ex =>
           String.eqb (trim (stripFences (content ex)))
             (trim (stripFences example)))
        group
  | None => false
  end.

(** ** Tag names, read without the parser *)

(** The text of [s] before the first character that [stop] accepts. *)
Fixpoint wordUntil (stop : ascii -> bool) (s : string) : string :=
  match s with
  | EmptyString => EmptyString
  | String c r => if stop c then EmptyString else String c (wordUntil stop r)
  end.

(** The tag name of a line, cut at the first character that [stop] accepts
    and taken through the alias; [None] for a line that is no tag line. *)
Definition tagCutAt (stop : ascii -> bool) (line : string) : option string :=
  match trim line with
  | String c r =>
      if Ascii.eqb c "@" then Some (aliasOf (wordUntil stop r)) else None
  | EmptyString => None
  end.

(** The tag name as the design document words it: up to the first white
    space. *)
Definition specTagOfLine : string -> option string := tagCutAt isWhiteSpace.

(** The tag name cut at the first blank only. *)
Definition blankTagOfLine : string -> option string :=
  tagCutAt (fun c => Ascii.eqb c " ").

Definition managedBy (tagOf : string -> option string) (line : string) : bool :=
  match tagOf line with
  | Some tagName => has MANAGED_JSDOC_TAGS tagName
  | None => false
  end.

Definition unmanagedBy (tagOf : string -> option string) (line : string)
    : bool :=
  match tagOf line with
  | Some tagName => negb (has MANAGED_JSDOC_TAGS tagName)
  | None => false
  end.

(** A returns line whose name is followed by a TAB. *)
Definition tabSeparatedReturns : string :=
  "@returns" +:+ String "009" "the total".

(** ** Existing parameter entries *)

(** The entry the parser makes of a tag line. *)
Definition entryOfLine (line : string) : TagEntry :=
  {| originalLine := trim line; content := tagContentOf (trim line) |}.

(** Whether a line is a parameter line whose content includes the
    [{type} name] of a parameter. *)
Definition matchesParam (param : Param) (line : string) : bool :=
  filedUnder "param" line
  && includes (content (entryOfLine line)) (paramSignature param).

(** The text the parameter step takes from an existing entry: what follows
    the first occurrence of the name in the content, trimmed, with one
    leading hyphen removed. *)
Definition existingParamText (param : Param) (e : TagEntry) : string :=
  if startsWith (afterName param e) "-"
  then trim (substring 1 (afterName param e))
  else afterName param e.

(** ** Sample runs *)

Example getJSDocBlocks_test :
  getJSDocBlocks
    (Some [{| c_type := CommentBlock;
              c_value := "*" +:+ nl +:+ " * This is a description." +:+ nl +:+
                         " * @param {string} name - The name." +:+ nl +:+ " " |}])
  = Some ["This is a description."; "@param {string} name - The name."; ""].
Proof. vm_compute. reflexivity. Qed.

Example buildJSDocLines_function_test :
  buildJSDocLines
    {| name := None; functionName := None;
       description := Some "Calculates the sum of two numbers.";
       params := Some [{| p_name := "a"; p_type := "number";
                          p_description := "The first number." |}];
       returns := Some {| r_type := "number"; r_description := "The total sum." |};
       throws := None; examples := None; constructorDescription := None;
       constructorParams := None; extendsClass := None |}
  = [Some "Calculates the sum of two numbers."; Some "";
     Some "@param {number} a - The first number.";
     Some "@returns {number} The total sum."].
Proof. vm_compute. reflexivity. Qed.

Example updateJSDocBlock_unmanaged_test :
  updateJSDocBlock ["A simple function."; "@see https://example.com"]
    {| name := None; functionName := None;
       description := Some "A simple function with more details.";
       params := Some [{| p_name := "id"; p_type := "number";
                          p_description := "The identifier." |}];
       returns := None; throws := None; examples := None;
       constructorDescription := None; constructorParams := None;
       extendsClass := None |}
  = ["A simple function."; ""; "@param {number} id - The identifier.";
     "@see https://example.com"].
Proof. vm_compute. reflexivity. Qed.

(** ** Properties of the string primitives *)

Lemma trimEnd_nonspace c r :
  isWhiteSpace c = false -> trimEnd (String c r) = String c (trimEnd r).
Proof. intros Hc. simpl. rewrite Hc. reflexivity. Qed.

Lemma trimEnd_idem s : trimEnd (trimEnd s) = trimEnd s.
Proof.
  induction s as [|c r IH]; [reflexivity|].
  simpl. destruct (isWhiteSpace c && isEmpty (trimEnd r)) eqn:Hd; [reflexivity|].
  simpl. rewrite IH, Hd. reflexivity.
Qed.

Lemma trimStart_head s :
  trimStart s = EmptyString \/
  exists c r, trimStart s = String c r /\ isWhiteSpace c = false.
Proof.
  induction s as [|c r IH]; [left; reflexivity|].
  simpl. destruct (isWhiteSpace c) eqn:Hc; [exact IH|].
  right. exists c, r. split; [reflexivity | exact Hc].
Qed.

Lemma trim_head s :
  trim s = EmptyString \/
  exists c r, trim s = String c r /\ isWhiteSpace c = false.
Proof.
  unfold trim. destruct (trimStart_head s) as [-> | (c & r & -> & Hc)].
  - left. reflexivity.
  - right. exists c, (trimEnd r). split; [apply trimEnd_nonspace, Hc | exact Hc].
Qed.

Lemma trim_idem s : trim (trim s) = trim s.
Proof.
  destruct (trim_head s) as [-> | (c & r & Hs & Hc)]; [reflexivity|].
  unfold trim at 1. rewrite Hs. simpl trimStart. rewrite Hc, <- Hs.
  unfold trim. apply trimEnd_idem.
Qed.

(** ** The output as the concatenation of its sections *)

Lemma updateJSDocBlock_sections E M :
  let st := parseExisting E in
  updateJSDocBlock E M =
    descriptionLines (mainDescription st) M
    ++ separatorLines (existingTags st) M (descriptionLines (mainDescription st) M)
    ++ classLines (existingTags st) M
    ++ constructorLines (existingTags st) M
    ++ paramLines (existingTags st) M
    ++ returnsLines (existingTags st) M
    ++ throwsLines (existingTags st) M
    ++ exampleLines (existingTags st) M
    ++ otherLines (existingTags st).
Proof.
  intros st. unfold updateJSDocBlock. fold st. cbn zeta.
  rewrite !app_nil_l, <- !app_assoc. reflexivity.
Qed.

(** ** Description *)

(** C3. When the main description parsed from the existing lines is not
    empty and does not contain the placeholder sentence, the description
    section of the reconciliation is exactly that description, and it is the
    first line of the output, whatever the metadata says. *)
Theorem human_description_preserved (E : list string) (M : InferredJSDoc) :
  mainDescription (parseExisting E) <> "" ->
  includes (mainDescription (parseExisting E)) "Description placeholder." = false ->
  descriptionLines (mainDescription (parseExisting E)) M
    = [mainDescription (parseExisting E)]
  /\ exists rest,
       updateJSDocBlock E M = mainDescription (parseExisting E) :: rest.
Proof.
  intros Hne Hph.
  assert (Hd : descriptionLines (mainDescription (parseExisting E)) M
               = [mainDescription (parseExisting E)]).
  { unfold descriptionLines, placeholderDesc. rewrite Hph.
    destruct (mainDescription (parseExisting E)) as [|c r] eqn:Hmd;
      [congruence|].
    simpl. destruct (description M) as [d|]; [|reflexivity].
    destruct (truthyStr d && negb (String.eqb d _)); reflexivity. }
  split; [exact Hd|].
  rewrite updateJSDocBlock_sections. cbn zeta. rewrite Hd.
  eexists. reflexivity.
Qed.

Lemma human_description_preserved_witness :
  mainDescription (parseExisting scenarioA_existing) <> ""
  /\ includes (mainDescription (parseExisting scenarioA_existing))
       "Description placeholder." = false
  /\ (descriptionLines (mainDescription (parseExisting scenarioA_existing))
        scenarioA_metadata
      = [mainDescription (parseExisting scenarioA_existing)]
      /\ exists rest,
           updateJSDocBlock scenarioA_existing scenarioA_metadata
           = mainDescription (parseExisting scenarioA_existing) :: rest).
Proof.
  assert (H1 : mainDescription (parseExisting scenarioA_existing) <> "")
    by (vm_compute; discriminate).
  assert (H2 : includes (mainDescription (parseExisting scenarioA_existing))
                 "Description placeholder." = false)
    by (vm_compute; reflexivity).
  split; [exact H1|]. split; [exact H2|].
  exact (human_description_preserved scenarioA_existing scenarioA_metadata H1 H2).
Defined.

Example scenarioA_run :
  updateJSDocBlock scenarioA_existing scenarioA_metadata
  = ["A human description."; "";
     "@param {string} name - The full legal name."].
Proof. vm_compute. reflexivity. Qed.

(** C4. A bare line that comes after a tag line is still appended to the
    main description: the flag that should stop the collection is never
    raised.  Here the line [trailing] follows [@see x] and ends up in the
    emitted description. *)
Theorem late_bare_line_joins_description :
  updateJSDocBlock ["Desc."; "@see x"; "trailing"] noMetadata
  = ["Desc." +:+ nl +:+ "trailing"; ""; "@see x"].
Proof. vm_compute. reflexivity. Qed.

(** The flag of the parser keeps its initial value. *)
Lemma foundMainDescription_never_set E st :
  foundMainDescription (fold_left parseLine E st) = foundMainDescription st.
Proof.
  revert st. induction E as [|l E IH]; intros st; [reflexivity|].
  simpl. rewrite IH. unfold parseLine.
  destruct (startsWith (trim l) "@").
  - destruct (has MANAGED_JSDOC_TAGS _); reflexivity.
  - destruct (negb (isEmpty (trim l)) && negb (foundMainDescription st));
      reflexivity.
Qed.

(** Every bare line, wherever it stands, is appended to the description. *)
Lemma mainDescription_fold E st :
  foundMainDescription st = false ->
  mainDescription (fold_left parseLine E st) =
  fold_left (fun md t => if isEmpty md then t else md +:+ nl +:+ t)
    (map trim (List.filter isBareLine E)) (mainDescription st).
Proof.
  revert st. induction E as [|l E IH]; intros st Hst; [reflexivity|].
  simpl fold_left at 1.
  rewrite IH by (rewrite <- Hst; apply (foundMainDescription_never_set [l])).
  simpl List.filter. unfold isBareLine at 2, parseLine. rewrite Hst.
  destruct (startsWith (trim l) "@"); simpl negb; simpl andb.
  - destruct (has MANAGED_JSDOC_TAGS _); reflexivity.
  - rewrite andb_true_r. destruct (isEmpty (trim l)); reflexivity.
Qed.

Lemma mainDescription_collects_all_bare_lines E :
  mainDescription (parseExisting E) =
  fold_left (fun md t => if isEmpty md then t else md +:+ nl +:+ t)
    (map trim (List.filter isBareLine E)) "".
Proof. apply (mainDescription_fold E initialState). reflexivity. Qed.

(** ** Separator *)

(** C8. With a description and a void return type the separator is
    emitted although no section follows: the output ends in a blank line. *)
Theorem separator_after_void_returns :
  updateJSDocBlock ["Resets the counter."] voidMetadata
  = ["Resets the counter."; ""].
Proof. vm_compute. reflexivity. Qed.

(** With a description and a class name only, the class marker follows the
    description without a separator. *)
Example no_separator_before_class_marker :
  updateJSDocBlock ["A user."]
    {| name := Some "User"; functionName := None; description := None;
       params := None; returns := None; throws := None; examples := None;
       constructorDescription := None; constructorParams := None;
       extendsClass := None |}
  = ["A user."; "@class"].
Proof. vm_compute. reflexivity. Qed.

(** ** Idempotence *)

(** C1. Running the reconciliation on its own output is not a fixed point
    when a returns line was emitted: the second run keeps the whole content
    of the returns entry, type included, and prefixes the type again. *)
Theorem reconcile_not_idempotent :
  updateJSDocBlock ["Adds two numbers."] addMetadata
  = ["Adds two numbers."; ""; "@returns {number} The sum."]
  /\ updateJSDocBlock (updateJSDocBlock ["Adds two numbers."] addMetadata)
       addMetadata
     = ["Adds two numbers."; ""; "@returns {number} {number} The sum."].
Proof. split; vm_compute; reflexivity. Qed.

(** The parameter path strips the [{type} name] prefix of the existing
    content and is stable under a second run. *)
Example param_second_run_stable :
  let M := functionMetadata "inc" "Description placeholder."
             [{| p_name := "a"; p_type := "number"; p_description := "x" |}]
             {| r_type := "void"; r_description := "" |} [] [] in
  updateJSDocBlock (updateJSDocBlock ["Increments."] M) M
  = updateJSDocBlock ["Increments."] M.
Proof. vm_compute. reflexivity. Qed.

(** ** Examples *)

(** C2. An example present both in the existing lines and in the metadata
    is dropped: the metadata's copy is skipped as a duplicate and existing
    example entries are never emitted. *)
Theorem example_dedup_drops_existing :
  updateJSDocBlock ["@example foo()"] exampleMetadata = [].
Proof. vm_compute. reflexivity. Qed.

(** An example of the metadata that matches an existing example entry is
    skipped, and the existing entries, filed under a managed name, have no
    step that emits them. *)
Lemma matching_example_skipped (tags : gmap string (list TagEntry))
    (example : string) (group : list TagEntry) (e : TagEntry) :
  tags !! "example" = Some group -> In e group ->
  trim (stripFences (content e)) = trim (stripFences example) ->
  exampleLine tags example = [].
Proof.
  intros Hg He Heq. unfold exampleLine. rewrite Hg.
  assert (Hex : existsb
                  (fun ex => String.eqb (trim (stripFences (content ex)))
                               (trim (stripFences example))) group = true).
  { apply existsb_exists. exists e. split; [exact He|].
    apply String.eqb_eq, Heq. }
  rewrite Hex. reflexivity.
Qed.

(** ** Fresh builder *)

(** C9. The class scenario: description, class marker, constructor line and
    the constructor's parameter, in that order. *)
Theorem buildJSDocLines_class_scenario :
  buildJSDocLines scenarioC_metadata
  = [Some "Represents a user."; Some "@class";
     Some "@constructor Creates a user.";
     Some "@param {string} id - The user ID."].
Proof. vm_compute. reflexivity. Qed.

(** ** Extraction *)

Lemma find_none_iff {A} (f : A -> bool) (l : list A) :
  List.find f l = None <-> Forall (fun x => f x = false) l.
Proof.
  induction l as [|x l IH]; simpl.
  - split; [constructor | reflexivity].
  - destruct (f x) eqn:Hx.
    + split; [discriminate|]. intros H. inversion H; congruence.
    + rewrite IH. split; [intros H; constructor; assumption|].
      intros H. inversion H; assumption.
Qed.

(** C6 as stated fails: the comment whose text is the single doc marker
    is selected, normalizes to no lines, and the result is the empty line
    list, not the absent value. *)
Lemma empty_block_is_not_absent :
  ~ (forall comments : list Comment,
       (List.find isJSDocComment comments = None
        \/ exists c, List.find isJSDocComment comments = Some c
                     /\ normalizeComment (c_value c) = [])
       -> getJSDocBlocks (Some comments) = None).
Proof.
  intros H.
  specialize (H [{| c_type := CommentBlock; c_value := "*" |}]).
  assert (Hsel : getJSDocBlocks
                   (Some [{| c_type := CommentBlock; c_value := "*" |}])
                 = Some []) by (vm_compute; reflexivity).
  rewrite H in Hsel; [discriminate|].
  right. eexists. split; vm_compute; reflexivity.
Qed.

(** C6, amended. The result is absent exactly when no comment list is
    attached or none of the comments is a block comment whose text begins
    with the doc marker; a selected comment always yields its normalized
    lines, be they none. *)
Theorem getJSDocBlocks_absent_iff (comments : option (list Comment)) :
  (getJSDocBlocks comments = None <->
   Forall (fun c => ~ (c_type c = CommentBlock
                       /\ startsWith (c_value c) "*" = true))
     (default [] comments))
  /\ (forall c, List.find isJSDocComment (default [] comments) = Some c ->
        getJSDocBlocks comments = Some (normalizeComment (c_value c))).
Proof.
  assert (Hcand : forall c,
            isJSDocComment c = false <->
            ~ (c_type c = CommentBlock /\ startsWith (c_value c) "*" = true)).
  { intros c. unfold isJSDocComment.
    destruct (c_type c), (startsWith (c_value c) "*"); split;
      try reflexivity; try discriminate;
      try (intros _ [H1 H2]; discriminate).
    intros H. exfalso. apply H. split; reflexivity. }
  split.
  - destruct comments as [[|c cs]|]; simpl default.
    + split; [constructor | reflexivity].
    + unfold getJSDocBlocks.
      destruct (List.find isJSDocComment (c :: cs)) as [j|] eqn:Hf.
      * split; [discriminate|]. intros HF.
        assert (Hn : List.find isJSDocComment (c :: cs) = None).
        { apply find_none_iff. eapply Forall_impl; [exact HF|].
          intros x Hx. apply Hcand, Hx. }
        congruence.
      * split; [|reflexivity]. intros _.
        apply find_none_iff in Hf. eapply Forall_impl; [exact Hf|].
        intros x Hx. apply Hcand, Hx.
    + split; [constructor | reflexivity].
  - intros c Hc. destruct comments as [[|c0 cs]|]; simpl in Hc; try discriminate.
    unfold getJSDocBlocks. simpl List.find.
    destruct (isJSDocComment c0); [congruence|]. rewrite Hc. reflexivity.
Qed.

(** ** Returns *)

Lemma find_split {A} (f : A -> bool) (l : list A) (x : A) :
  List.find f l = Some x <->
  exists before after,
    l = before ++ x :: after /\ Forall (fun y => f y = false) before
    /\ f x = true.
Proof.
  induction l as [|y l IH]; simpl.
  - split; [discriminate|]. intros (b & a & H & _). destruct b; discriminate.
  - destruct (f y) eqn:Hy.
    + split.
      * intros [= ->]. exists [], l. repeat split; [constructor | exact Hy].
      * intros (b & a & H & Hb & Hx). destruct b as [|z b]; simpl in H.
        -- congruence.
        -- injection H as -> _. inversion Hb; congruence.
    + rewrite IH. split.
      * intros (b & a & -> & Hb & Hx). exists (y :: b), a.
        repeat split; [constructor; assumption | exact Hx].
      * intros (b & a & H & Hb & Hx). destruct b as [|z b]; simpl in H.
        -- congruence.
        -- injection H as -> ->. exists b, a. inversion Hb.
           repeat split; assumption.
Qed.

Lemma truthyStr_true s : truthyStr s = true <-> s <> "".
Proof.
  destruct s; simpl; split; intros H; try discriminate; try reflexivity.
  exfalso. apply H. reflexivity.
Qed.

Lemma negb_eqb_true (s t : string) : negb (String.eqb s t) = true <-> s <> t.
Proof. rewrite negb_true_iff. apply String.eqb_neq. Qed.

Lemma negb_eqb_false (s t : string) : negb (String.eqb s t) = false <-> s = t.
Proof. rewrite negb_false_iff. apply String.eqb_eq. Qed.

(** The returns section for an arbitrary tag map. *)
Lemma returnsLines_spec (tags : gmap string (list TagEntry))
    (M : InferredJSDoc) (r : Returns) :
  returns M = Some r -> r_type r <> "" -> r_type r <> "void" ->
  let canonical := ["@returns {" +:+ r_type r +:+ "} " +:+ r_description r] in
  match tags !! "returns" with
  | None => returnsLines tags M = canonical
  | Some group =>
      (Forall (fun x => content x = placeholderReturnsDesc) group ->
       returnsLines tags M = canonical)
      /\ (forall before e after,
            group = before ++ e :: after ->
            Forall (fun x => content x = placeholderReturnsDesc) before ->
            content e <> placeholderReturnsDesc ->
            returnsLines tags M =
              if isEmpty (content e) then canonical
              else ["@returns {" +:+ r_type r +:+ "} " +:+ content e])
  end.
Proof.
  intros Hr Hty Hvoid canonical. unfold returnsLines. rewrite Hr.
  apply truthyStr_true in Hty. apply negb_eqb_true in Hvoid.
  rewrite Hty, Hvoid. simpl andb. cbv iota.
  destruct (tags !! "returns") as [group|]; [|reflexivity].
  simpl mbind. split.
  - intros Hall.
    assert (Hnone : List.find
              (fun tag => negb (String.eqb (content tag) placeholderReturnsDesc))
              group = None).
    { apply find_none_iff. eapply Forall_impl; [exact Hall|].
      intros x Hx. simpl. apply negb_eqb_false, Hx. }
    cbn. rewrite Hnone. reflexivity.
  - intros before e after Hg Hb He.
    assert (Hsome : List.find
              (fun tag => negb (String.eqb (content tag) placeholderReturnsDesc))
              group = Some e).
    { apply find_split. exists before, after. split; [exact Hg|]. split.
      - eapply Forall_impl; [exact Hb|]. intros x Hx. simpl.
        apply negb_eqb_false, Hx.
      - apply negb_eqb_true, He. }
    cbn. rewrite Hsome. apply negb_eqb_true in He. rewrite He, andb_true_r.
    destruct (isEmpty (content e)); reflexivity.
Qed.

(** The returns step as the code runs it.  A returns line is emitted
    exactly when the metadata has a return type that is neither empty nor
    [void].  Its text comes from the first existing returns entry whose
    content is not the placeholder: when that entry exists and its content
    is not empty, the line is the metadata's type followed by the whole
    content of that entry, the old type text included; otherwise it is the
    metadata's type followed by the metadata's description. *)
Lemma returns_step (E : list string) (M : InferredJSDoc) :
  let tags := existingTags (parseExisting E) in
  (returnsLines tags M <> [] <->
   exists r, returns M = Some r /\ r_type r <> "" /\ r_type r <> "void")
  /\ (forall r,
        returns M = Some r -> r_type r <> "" -> r_type r <> "void" ->
        let canonical :=
          ["@returns {" +:+ r_type r +:+ "} " +:+ r_description r] in
        match tags !! "returns" with
        | None => returnsLines tags M = canonical
        | Some group =>
            (Forall (fun x => content x = placeholderReturnsDesc) group ->
             returnsLines tags M = canonical)
            /\ (forall before e after,
                  group = before ++ e :: after ->
                  Forall (fun x => content x = placeholderReturnsDesc) before ->
                  content e <> placeholderReturnsDesc ->
                  returnsLines tags M =
                    if isEmpty (content e) then canonical
                    else ["@returns {" +:+ r_type r +:+ "} " +:+ content e])
        end)
  /\ exists before after,
       updateJSDocBlock E M = before ++ returnsLines tags M ++ after.
Proof.
  intros tags. split; [|split].
  - unfold returnsLines. destruct (returns M) as [r|].
    + destruct (truthyStr (r_type r)) eqn:Hty;
        destruct (negb (String.eqb (r_type r) "void")) eqn:Hv; simpl andb;
        cbv iota.
      * split.
        -- intros _. exists r. split; [reflexivity|].
           split; [apply truthyStr_true, Hty | apply negb_eqb_true, Hv].
        -- intros _.
           destruct (tags !! "returns" ≫= _) as [e|]; [|discriminate].
           destruct (_ && _); discriminate.
      * split; [congruence|]. intros (r' & [= <-] & _ & Hv').
        apply negb_eqb_true in Hv'. congruence.
      * split; [congruence|]. intros (r' & [= <-] & Hty' & _).
        apply truthyStr_true in Hty'. congruence.
      * split; [congruence|]. intros (r' & [= <-] & Hty' & _).
        apply truthyStr_true in Hty'. congruence.
    + split; [congruence|]. intros (r' & Hr & _). discriminate.
  - intros r Hr Hty Hv. apply returnsLines_spec; assumption.
  - rewrite updateJSDocBlock_sections. cbn zeta. fold tags.
    set (st := parseExisting E).
    exists (descriptionLines (mainDescription st) M
            ++ separatorLines tags M (descriptionLines (mainDescription st) M)
            ++ classLines tags M ++ constructorLines tags M
            ++ paramLines tags M),
           (throwsLines tags M ++ exampleLines tags M ++ otherLines tags).
    rewrite <- !app_assoc. reflexivity.
Qed.

(** C5. An existing returns line with a genuine description is not paired
    with the metadata's type: the emitted line carries the whole content of
    the existing entry, its old type text included, behind the new type. *)
Theorem returns_keeps_old_type :
  updateJSDocBlock ["@returns {number} The total."] addMetadata
  = ["@returns {number} {number} The total."].
Proof. vm_compute. reflexivity. Qed.

(** The run of the repository's own test for this step, which expects
    [@returns {Promise<void>} No return value.]. *)
Example builder_test_returns_run :
  updateJSDocBlock
    ["This is a human-written description that should be kept.";
     "@param {string} name - A placeholder description.";
     "@returns {void}"]
    {| name := None; functionName := None;
       description := Some "This is an AI description that should be ignored.";
       params := Some [{| p_name := "name"; p_type := "string";
                          p_description := "The full name of the user." |}];
       returns := Some {| r_type := "Promise<void>";
                          r_description := "No return value." |};
       throws := None; examples := None; constructorDescription := None;
       constructorParams := None; extendsClass := None |}
  = ["This is a human-written description that should be kept."; "";
     "@param {string} name - A placeholder description.";
     "@returns {Promise<void>} {void}"].
Proof. vm_compute. reflexivity. Qed.

(** ** Unmanaged tags *)

Lemma managed_not_other k : has MANAGED_JSDOC_TAGS k = true -> k <> "other".
Proof. intros Hk ->. vm_compute in Hk. discriminate. Qed.

Lemma tagOfLine_trim l : tagOfLine (trim l) = tagOfLine l.
Proof. unfold tagOfLine. rewrite trim_idem. reflexivity. Qed.

Lemma isUnmanagedTagLine_trim l :
  isUnmanagedTagLine (trim l) = isUnmanagedTagLine l.
Proof. unfold isUnmanagedTagLine. rewrite tagOfLine_trim. reflexivity. Qed.

Lemma unmanaged_not_managed l :
  isUnmanagedTagLine l = true -> isManagedTagLine l = false.
Proof.
  unfold isUnmanagedTagLine, isManagedTagLine.
  destruct (tagOfLine l); [|reflexivity]. apply negb_true_iff.
Qed.

(** One step of the parser appends the line to the [other] group exactly
    when it is a tag line with an unmanaged name. *)
Lemma otherLines_parseLine st l :
  otherLines (existingTags (parseLine st l)) =
  otherLines (existingTags st)
  ++ (if isUnmanagedTagLine l then [trim l] else []).
Proof.
  unfold parseLine, isUnmanagedTagLine, tagOfLine.
  destruct (startsWith (trim l) "@").
  - destruct (has MANAGED_JSDOC_TAGS (tagNameOf (trim l))) eqn:Hm; simpl.
    + unfold otherLines, pushEntry.
      rewrite lookup_insert_ne by (apply managed_not_other, Hm).
      rewrite app_nil_r. reflexivity.
    + unfold otherLines, pushEntry. rewrite lookup_insert_eq.
      destruct (existingTags st !! "other") as [g|]; simpl.
      * rewrite map_app. reflexivity.
      * reflexivity.
  - rewrite app_nil_r.
    destruct (negb (isEmpty (trim l)) && negb (foundMainDescription st));
      reflexivity.
Qed.

Lemma otherLines_fold E st :
  otherLines (existingTags (fold_left parseLine E st)) =
  otherLines (existingTags st) ++ map trim (List.filter isUnmanagedTagLine E).
Proof.
  revert st. induction E as [|l E IH]; intros st; simpl.
  - rewrite app_nil_r. reflexivity.
  - rewrite IH, otherLines_parseLine, <- app_assoc.
    destruct (isUnmanagedTagLine l); reflexivity.
Qed.

Lemma otherLines_parseExisting E :
  otherLines (existingTags (parseExisting E)) =
  map trim (List.filter isUnmanagedTagLine E).
Proof. unfold parseExisting. rewrite otherLines_fold. reflexivity. Qed.

Lemma map_trim_id (lines : list string) :
  Forall (fun line => trim line = line) lines -> map trim lines = lines.
Proof.
  induction 1 as [|l lines Hl _ IH]; [reflexivity|].
  simpl. rewrite Hl, IH. reflexivity.
Qed.

(** The passthrough in the parser's own terms: the lines the parser files
    under [other] are passed through trimmed, in the order of the existing
    lines, as the tail of the output, and every line the parser files under
    a managed name lies before that tail. *)
Lemma unmanaged_round_trip_parser (E : list string) (M : InferredJSDoc) :
  let passthrough := map trim (List.filter isUnmanagedTagLine E) in
  exists managed,
    updateJSDocBlock E M = managed ++ passthrough
    /\ (forall (i : nat) (line : string),
          updateJSDocBlock E M !! i = Some line ->
          isManagedTagLine line = true ->
          (i < List.length managed)%nat)
    /\ (forall line, In line E -> isUnmanagedTagLine line = true ->
          In (trim line) (updateJSDocBlock E M))
    /\ (Forall (fun line => trim line = line) E ->
        passthrough = List.filter isUnmanagedTagLine E).
Proof.
  intros passthrough.
  set (st := parseExisting E).
  set (managed :=
         descriptionLines (mainDescription st) M
         ++ separatorLines (existingTags st) M
              (descriptionLines (mainDescription st) M)
         ++ classLines (existingTags st) M
         ++ constructorLines (existingTags st) M
         ++ paramLines (existingTags st) M
         ++ returnsLines (existingTags st) M
         ++ throwsLines (existingTags st) M
         ++ exampleLines (existingTags st) M).
  exists managed.
  assert (Hout : updateJSDocBlock E M = managed ++ passthrough).
  { rewrite updateJSDocBlock_sections. cbn zeta.
    rewrite otherLines_parseExisting. subst managed st.
    rewrite <- !app_assoc. reflexivity. }
  split; [exact Hout|]. split; [|split].
  - intros i line Hi Hman. rewrite Hout in Hi.
    destruct (decide (i < List.length managed)%nat) as [Hlt|Hge]; [exact Hlt|].
    rewrite lookup_app_r in Hi by lia.
    apply list_elem_of_lookup_2, list_elem_of_In in Hi.
    subst passthrough. apply in_map_iff in Hi as (l & <- & Hl).
    apply filter_In in Hl as [_ Hl].
    rewrite <- isUnmanagedTagLine_trim in Hl.
    apply unmanaged_not_managed in Hl. congruence.
  - intros line Hin Hun. rewrite Hout. apply in_or_app. right.
    subst passthrough. apply in_map, filter_In. split; assumption.
  - intros Htrim. subst passthrough. apply map_trim_id.
    apply Forall_forall. intros l Hl. apply list_elem_of_In, filter_In in Hl.
    rewrite Forall_forall in Htrim. apply Htrim, list_elem_of_In, Hl.
Qed.

(** The lines delivered by the extractor carry no outer white space. *)
Lemma cleanLine_trimmed line : trim (cleanLine line) = cleanLine line.
Proof.
  unfold cleanLine. destruct (startsWith (trim line) "*"); apply trim_idem.
Qed.

Lemma getJSDocBlocks_trimmed comments lines :
  getJSDocBlocks comments = Some lines ->
  Forall (fun line => trim line = line) lines.
Proof.
  intros H.
  assert (Hn : forall v, Forall (fun line => trim line = line)
                           (normalizeComment v)).
  { intros v. unfold normalizeComment.
    assert (H0 : Forall (fun line => trim line = line)
                   (map cleanLine (split "010" v))).
    { apply Forall_forall. intros x Hx. apply list_elem_of_In in Hx.
      apply in_map_iff in Hx as (y & <- & _).
      apply cleanLine_trimmed. }
    assert (H1 : Forall (fun line => trim line = line)
                   (dropLeadingEmpty (map cleanLine (split "010" v)))).
    { unfold dropLeadingEmpty. destruct H0 as [|x l Hx Hl]; [constructor|].
      destruct (isEmpty x); [exact Hl | constructor; assumption]. }
    unfold dropEndMarker.
    destruct (last _) as [x|]; [|exact H1].
    destruct (String.eqb x "*/" || String.eqb x "/"); [|exact H1].
    revert H1. generalize (dropLeadingEmpty (map cleanLine (split "010" v))).
    intros l Hl. induction Hl as [|y l Hy Hl IH]; [constructor|].
    simpl. destruct l; [constructor|]. constructor; [exact Hy | exact IH]. }
  destruct comments as [[|c cs]|]; try discriminate.
  unfold getJSDocBlocks in H.
  destruct (List.find isJSDocComment (c :: cs)); [|discriminate].
  injection H as <-. apply Hn.
Qed.

(** ** Reading the tag of an emitted line *)

Lemma first_split_cons sep c s :
  first (split sep (String c s)) =
  if Ascii.eqb c sep then EmptyString else String c (first (split sep s)).
Proof.
  simpl. destruct (Ascii.eqb c sep); [reflexivity|].
  destruct (split sep s); reflexivity.
Qed.

Lemma nonspace_not_blank c : isWhiteSpace c = false -> Ascii.eqb c " " = false.
Proof.
  intros Hc. destruct (Ascii.eqb_spec c " ") as [->|]; [|reflexivity].
  discriminate Hc.
Qed.

Lemma first_split_word w X :
  noWhiteSpace w = true ->
  X = EmptyString \/ (exists r, X = String " " r) ->
  first (split " " (w +:+ X)) = w.
Proof.
  intros Hw HX. induction w as [|c w IH].
  - destruct HX as [-> | [r ->]]; reflexivity.
  - change (String c w +:+ X) with (String c (w +:+ X)). simpl in Hw. apply andb_true_iff in Hw as [Hc Hw].
    apply negb_true_iff in Hc.
    rewrite first_split_cons, (nonspace_not_blank _ Hc), (IH Hw).
    reflexivity.
Qed.

Lemma trimEnd_word w s :
  noWhiteSpace w = true -> trimEnd (w +:+ s) = w +:+ trimEnd s.
Proof.
  intros Hw. induction w as [|c w IH]; [reflexivity|].
  simpl in Hw. apply andb_true_iff in Hw as [Hc Hw].
  apply negb_true_iff in Hc.
  change (String c w +:+ s) with (String c (w +:+ s)).
  rewrite (trimEnd_nonspace _ _ Hc), (IH Hw). reflexivity.
Qed.

Lemma trimEnd_blank rest :
  trimEnd (String " " rest) = EmptyString
  \/ exists r, trimEnd (String " " rest) = String " " r.
Proof.
  simpl. destruct (isEmpty (trimEnd rest)); [left | right; eexists]; reflexivity.
Qed.

(** A line made of [@], a word, a blank and anything is filed under the
    word, up to the alias. *)
Lemma tagOfLine_word w rest :
  noWhiteSpace w = true ->
  tagOfLine (String "@" (w +:+ String " " rest)) = Some (aliasOf w).
Proof.
  intros Hw. unfold tagOfLine, trim. simpl trimStart.
  rewrite trimEnd_nonspace by reflexivity. rewrite (trimEnd_word _ _ Hw).
  change (startsWith (String "@" (w +:+ trimEnd (String " " rest))) "@")
    with true. cbv iota.
  unfold tagNameOf.
  change (String "@" (w +:+ trimEnd (String " " rest)))
    with (String "@" w +:+ trimEnd (String " " rest)).
  rewrite first_split_word; [reflexivity | exact Hw | apply trimEnd_blank].
Qed.

Lemma notClass_word w rest :
  noWhiteSpace w = true -> String.eqb (aliasOf w) "class" = false ->
  isClassMarker (String "@" (w +:+ String " " rest)) = false.
Proof.
  intros Hw Ha. unfold isClassMarker. rewrite (tagOfLine_word _ _ Hw).
  exact Ha.
Qed.

Lemma notClass_param rest : isClassMarker ("@param " +:+ rest) = false.
Proof. apply (notClass_word "param" rest); reflexivity. Qed.

Lemma notClass_returns rest : isClassMarker ("@returns " +:+ rest) = false.
Proof. apply (notClass_word "returns" rest); reflexivity. Qed.

Lemma notClass_throws rest : isClassMarker ("@throws " +:+ rest) = false.
Proof. apply (notClass_word "throws" rest); reflexivity. Qed.

Lemma notClass_example rest : isClassMarker ("@example " +:+ rest) = false.
Proof. apply (notClass_word "example" rest); reflexivity. Qed.

Lemma notClass_constructor rest :
  isClassMarker ("@constructor " +:+ rest) = false.
Proof. apply (notClass_word "constructor" rest); reflexivity. Qed.

(** ** Unmanaged tags, with the name cut independently *)

(** The blank-cut name is the name the parser computes. *)
Lemma first_split_wordUntil s :
  first (split " " s) = wordUntil (fun c => Ascii.eqb c " ") s.
Proof.
  induction s as [|c r IH]; [reflexivity|].
  rewrite first_split_cons. simpl wordUntil.
  destruct (Ascii.eqb c " "); [reflexivity|]. rewrite IH. reflexivity.
Qed.

Lemma blankTagOfLine_parser line : blankTagOfLine line = tagOfLine line.
Proof.
  unfold blankTagOfLine, tagCutAt, tagOfLine.
  destruct (trim line) as [|c r]; [reflexivity|].
  change (startsWith (String c r) "@") with (Ascii.eqb c "@" && true).
  rewrite andb_true_r.
  destruct (Ascii.eqb_spec c "@") as [->|]; [|reflexivity].
  unfold tagNameOf. rewrite first_split_cons.
  change (Ascii.eqb "@" " ") with false. cbv iota.
  rewrite first_split_wordUntil. reflexivity.
Qed.

Lemma unmanagedBy_blank line :
  unmanagedBy blankTagOfLine line = isUnmanagedTagLine line.
Proof.
  unfold unmanagedBy, isUnmanagedTagLine. rewrite blankTagOfLine_parser.
  reflexivity.
Qed.

Lemma managedBy_blank line :
  managedBy blankTagOfLine line = isManagedTagLine line.
Proof.
  unfold managedBy, isManagedTagLine. rewrite blankTagOfLine_parser.
  reflexivity.
Qed.

(** C7 as stated fails when the tag name is cut at the first white space,
    as the design document cuts it: a returns line whose name is followed
    by a TAB is a managed-tag line, yet it is passed through behind the
    unmanaged [@see] entry. *)
Lemma tab_separated_tag_passed_through :
  ~ (forall (E : list string) (M : InferredJSDoc) (i j : nat)
            (entry managedLine : string),
       In entry E -> unmanagedBy specTagOfLine entry = true ->
       updateJSDocBlock E M !! j = Some entry ->
       updateJSDocBlock E M !! i = Some managedLine ->
       managedBy specTagOfLine managedLine = true ->
       (i < j)%nat).
Proof.
  intros H.
  assert (Hout : updateJSDocBlock ["@see x"; tabSeparatedReturns] noMetadata
                 = ["@see x"; tabSeparatedReturns])
    by (vm_compute; reflexivity).
  specialize (H ["@see x"; tabSeparatedReturns] noMetadata 1%nat 0%nat
                "@see x" tabSeparatedReturns).
  rewrite Hout in H.
  assert (Hlt : (1 < 0)%nat).
  { apply H.
    - left. reflexivity.
    - vm_compute. reflexivity.
    - reflexivity.
    - reflexivity.
    - vm_compute. reflexivity. }
  lia.
Qed.

(** C7, amended. With the tag name cut at the first blank of the trimmed
    line (a name followed by other white space stays one word with what
    follows it): every tag line of the existing lines whose name, after the
    alias, is outside the managed set is passed through as its entry's
    original line (the line trimmed, hence the line itself when it carries
    no outer white space), in the order of the existing lines; these lines
    form the tail of the output, and every line of the output that carries a
    managed tag lies before that tail. *)
Theorem unmanaged_passthrough (E : list string) (M : InferredJSDoc) :
  let passthrough := map trim (List.filter (unmanagedBy blankTagOfLine) E) in
  exists managed,
    updateJSDocBlock E M = managed ++ passthrough
    /\ (forall (i : nat) (line : string),
          updateJSDocBlock E M !! i = Some line ->
          managedBy blankTagOfLine line = true ->
          (i < List.length managed)%nat)
    /\ (forall line, In line E -> unmanagedBy blankTagOfLine line = true ->
          In (trim line) (updateJSDocBlock E M))
    /\ (Forall (fun line => trim line = line) E ->
        passthrough = List.filter (unmanagedBy blankTagOfLine) E).
Proof.
  intros passthrough.
  assert (Hf : List.filter (unmanagedBy blankTagOfLine) E
               = List.filter isUnmanagedTagLine E).
  { apply filter_ext. intros l. apply unmanagedBy_blank. }
  subst passthrough. rewrite Hf.
  destruct (unmanaged_round_trip_parser E M)
    as (managed & Hout & Hpos & Hin & Htrim).
  exists managed. split; [exact Hout|]. split; [|split].
  - intros i line Hi Hm. rewrite managedBy_blank in Hm. eauto.
  - intros line Hl Hu. rewrite unmanagedBy_blank in Hu. eauto.
  - exact Htrim.
Qed.

(** ** The invariant of the parsed tags *)

Lemma wellFiled_empty : wellFiled ∅.
Proof. intros k group Hk. rewrite lookup_empty in Hk. discriminate. Qed.

Lemma wellFiled_push tags t c :
  wellFiled tags -> trim t = t -> startsWith t "@" = true ->
  wellFiled (pushEntry (fileKey t) {| originalLine := t; content := c |} tags).
Proof.
  intros Hwf Ht Hat k group Hk. unfold pushEntry in Hk.
  destruct (decide (fileKey t = k)) as [<-|Hne].
  - rewrite lookup_insert_eq in Hk. injection Hk as <-. split.
    + intros H. apply app_eq_nil in H as [_ H]. discriminate.
    + apply Forall_app. split.
      * destruct (tags !! fileKey t) as [g|] eqn:Hg; simpl; [|constructor].
        apply (Hwf _ _ Hg).
      * constructor; [|constructor]. simpl. auto.
  - rewrite lookup_insert_ne in Hk by exact Hne. apply (Hwf _ _ Hk).
Qed.

Lemma parseLine_wellFiled st l :
  wellFiled (existingTags st) -> wellFiled (existingTags (parseLine st l)).
Proof.
  intros Hwf. unfold parseLine.
  destruct (startsWith (trim l) "@") eqn:Hat.
  - pose proof (wellFiled_push _ (trim l) (tagContentOf (trim l)) Hwf
                  (trim_idem l) Hat) as Hp.
    unfold fileKey in Hp.
    destruct (has MANAGED_JSDOC_TAGS (tagNameOf (trim l))); exact Hp.
  - destruct (negb (isEmpty (trim l)) && negb (foundMainDescription st));
      exact Hwf.
Qed.

Lemma parse_wellFiled E : wellFiled (existingTags (parseExisting E)).
Proof.
  unfold parseExisting.
  assert (H : forall st, wellFiled (existingTags st) ->
                         wellFiled (existingTags (fold_left parseLine E st))).
  { induction E as [|l E IH]; intros st Hst; [exact Hst|].
    simpl. apply IH, parseLine_wellFiled, Hst. }
  apply H, wellFiled_empty.
Qed.

(** Groups are never empty: [entry0] reads a real entry. *)
Lemma parse_groups_nonempty E k group :
  existingTags (parseExisting E) !! k = Some group ->
  exists e rest, group = e :: rest /\ entry0 group = e.
Proof.
  intros Hk. destruct (parse_wellFiled E _ _ Hk) as [Hne _].
  destruct group as [|e rest]; [congruence|]. exists e, rest. auto.
Qed.

(** Only managed names and [other] are keys of the map. *)
Lemma wellFiled_keys tags k group :
  wellFiled tags -> tags !! k = Some group ->
  has MANAGED_JSDOC_TAGS k = true \/ k = "other".
Proof.
  intros Hwf Hk. destruct (Hwf _ _ Hk) as [Hne Hall].
  destruct group as [|e rest]; [congruence|].
  inversion Hall as [|? ? (_ & _ & He) _]; subst.
  unfold fileKey.
  destruct (has MANAGED_JSDOC_TAGS (tagNameOf (originalLine e))) eqn:Hm; auto.
Qed.

Lemma wellFiled_no_constructor tags :
  wellFiled tags -> tags !! "constructor" = None.
Proof.
  intros Hwf. destruct (tags !! "constructor") as [g|] eqn:Hg; [|reflexivity].
  destruct (wellFiled_keys _ _ _ Hwf Hg) as [H|H]; discriminate.
Qed.

Lemma filed_isClassMarker t k :
  trim t = t -> startsWith t "@" = true -> fileKey t = k ->
  isClassMarker t = String.eqb k "class".
Proof.
  intros Ht Hat Hk. unfold isClassMarker, tagOfLine. rewrite Ht, Hat.
  unfold fileKey in Hk.
  destruct (has MANAGED_JSDOC_TAGS (tagNameOf t)) eqn:Hm; subst k;
    [reflexivity|].
  destruct (String.eqb_spec (tagNameOf t) "class") as [Hc|]; [|reflexivity].
  rewrite Hc in Hm. discriminate.
Qed.

Lemma group_isClassMarker tags k group e :
  wellFiled tags -> tags !! k = Some group -> In e group ->
  isClassMarker (originalLine e) = String.eqb k "class".
Proof.
  intros Hwf Hk He. destruct (Hwf _ _ Hk) as [_ Hall].
  rewrite Forall_forall in Hall.
  destruct (Hall e) as (Ht & Hat & Hf); [apply list_elem_of_In, He|].
  apply filed_isClassMarker; assumption.
Qed.

(** ** Where class markers can come from *)

Lemma forEach_Forall {A B} (P : B -> Prop) (o : option (list A))
    (f : A -> list B) :
  (forall x, Forall P (f x)) -> Forall P (forEach o f).
Proof.
  intros Hf. destruct o as [l|]; simpl; [|constructor].
  induction l as [|x l IH]; simpl; [constructor|].
  apply Forall_app. split; [apply Hf | exact IH].
Qed.

Lemma Forall_one {A} (P : A -> Prop) (x : A) : P x -> Forall P [x].
Proof. intros Hx. constructor; [exact Hx | constructor]. Qed.

Lemma canonicalParamLine_notClass param : notClass (canonicalParamLine param).
Proof. apply notClass_param. Qed.

Section NoClassMarker.

Variable tags : gmap string (list TagEntry).
Variable M : InferredJSDoc.
Hypothesis Hwf : wellFiled tags.

Lemma constructorParamLine_notClass param :
  Forall notClass (constructorParamLine tags param).
Proof.
  unfold constructorParamLine.
  destruct (tags !! "param" ≫= _) as [e|].
  - destruct (negb _); apply Forall_one;
      [apply notClass_param | apply canonicalParamLine_notClass].
  - apply Forall_one, canonicalParamLine_notClass.
Qed.

Lemma constructorLines_notClass : Forall notClass (constructorLines tags M).
Proof.
  unfold constructorLines.
  destruct (constructorDescription M) as [cd|]; [|constructor].
  destruct (truthyStr cd); [|constructor].
  rewrite (wellFiled_no_constructor _ Hwf). simpl mbind.
  apply Forall_app. split.
  - destruct (_ && _); [|constructor]. apply Forall_one, notClass_constructor.
  - destruct (hasLength _); [|constructor].
    apply forEach_Forall, constructorParamLine_notClass.
Qed.

Lemma paramLines_notClass : Forall notClass (paramLines tags M).
Proof.
  apply forEach_Forall. intros param. unfold paramLine.
  destruct (tags !! "param" ≫= _) as [e|].
  - destruct (negb _); apply Forall_one;
      [apply notClass_param | apply canonicalParamLine_notClass].
  - apply Forall_one, canonicalParamLine_notClass.
Qed.

Lemma returnsLines_notClass : Forall notClass (returnsLines tags M).
Proof.
  unfold returnsLines. destruct (returns M) as [r|]; [|constructor].
  destruct (_ && _); [|constructor].
  destruct (tags !! "returns" ≫= _) as [e|].
  - destruct (_ && _); apply Forall_one, notClass_returns.
  - apply Forall_one, notClass_returns.
Qed.

Lemma throwsLines_notClass : Forall notClass (throwsLines tags M).
Proof.
  apply forEach_Forall. intros thr. unfold throwLine.
  destruct (tags !! "throws") as [group|] eqn:Hg; simpl mbind.
  - destruct (List.find _ group) as [e|] eqn:He.
    + apply Forall_one. apply find_some in He as [He _].
      unfold notClass. rewrite (group_isClassMarker _ _ _ _ Hwf Hg He).
      reflexivity.
    + apply Forall_one, notClass_throws.
  - apply Forall_one, notClass_throws.
Qed.

Lemma exampleLines_notClass : Forall notClass (exampleLines tags M).
Proof.
  apply forEach_Forall. intros ex. unfold exampleLine.
  destruct (_ && _); [|constructor]. apply Forall_one, notClass_example.
Qed.

Lemma otherLines_notClass : Forall notClass (otherLines tags).
Proof.
  unfold otherLines. destruct (tags !! "other") as [group|] eqn:Hg;
    [|constructor].
  apply Forall_forall. intros line Hin. apply list_elem_of_In in Hin.
  apply in_map_iff in Hin as (e & <- & He).
  unfold notClass. rewrite (group_isClassMarker _ _ _ _ Hwf Hg He).
  reflexivity.
Qed.

(** The class step opens with a class marker when the name is truthy and
    emits nothing otherwise. *)
Lemma classLines_marker :
  if truthy (name M)
  then exists marker rest,
         classLines tags M = marker :: rest /\ isClassMarker marker = true
  else classLines tags M = [].
Proof.
  unfold classLines. destruct (truthy (name M)); [|reflexivity].
  destruct (tags !! "class") as [group|] eqn:Hg.
  - eexists _, _. split; [reflexivity|].
    destruct (Hwf _ _ Hg) as [Hne _].
    destruct group as [|e rest]; [congruence|]. simpl entry0.
    rewrite (group_isClassMarker _ _ _ e Hwf Hg); [reflexivity | left; reflexivity].
  - eexists _, _. split; reflexivity.
Qed.

End NoClassMarker.

(** ** Dispatch on the name *)

Lemma Exists_notClass_false (lines : list string) :
  Forall notClass lines -> ~ Exists (fun l => isClassMarker l = true) lines.
Proof.
  intros Hall Hex. apply Exists_exists in Hex as (l & Hl & Hc).
  rewrite Forall_forall in Hall. specialize (Hall l Hl).
  unfold notClass in Hall. congruence.
Qed.

Lemma slots_no_marker (lines : list string) :
  Forall notClass lines ->
  ~ Exists (fun s => isClassMarkerSlot s = true) (Some <$> lines).
Proof.
  intros Hall Hex. apply Exists_exists in Hex as (s & Hs & Hc).
  apply list_elem_of_fmap in Hs as (l & -> & Hl).
  rewrite Forall_forall in Hall. specialize (Hall l Hl).
  unfold notClass in Hall. simpl in Hc. congruence.
Qed.

(** The tag lines of the fresh builder when the name is falsy. *)
Lemma buildJSDocLines_function (M : InferredJSDoc) :
  truthy (name M) = false ->
  exists lines,
    buildJSDocLines M = description M :: (Some <$> lines)
    /\ Forall notClass lines.
Proof.
  intros Hn. unfold buildJSDocLines. rewrite Hn. cbn zeta.
  exists ((if hasLength (params M)
           then "" :: forEach (params M) (fun p => [canonicalParamLine p])
           else [])
          ++ (match returns M with
              | Some r =>
                  if truthyStr (r_type r) && negb (String.eqb (r_type r) "void")
                  then ["@returns {" +:+ r_type r +:+ "} " +:+ r_description r]
                  else []
              | None => []
              end)
          ++ (if hasLength (throws M)
              then forEach (throws M)
                     (fun thr => ["@throws {Error} " +:+ t_description thr])
              else [])
          ++ (if hasLength (examples M)
              then forEach (examples M) (fun ex => ["@example " +:+ ex])
              else [])).
  assert (Hfe : forall {A} (o : option (list A)) (f : A -> string),
            forEach o (fun x => [Some (f x)]) = Some <$> forEach o (fun x => [f x])).
  { intros A o f. destruct o as [l|]; [|reflexivity]. simpl.
    induction l as [|x l IH]; [reflexivity|]. simpl. rewrite IH. reflexivity. }
  split.
  - rewrite !fmap_app, !Hfe, <- !app_assoc.
    destruct (hasLength (params M)), (returns M) as [r|],
      (hasLength (throws M)), (hasLength (examples M));
      try destruct (truthyStr (r_type r) && negb (String.eqb (r_type r) "void"));
      reflexivity.
  - repeat (apply Forall_app; split).
    + destruct (hasLength (params M)); [|constructor].
      constructor; [reflexivity|].
      apply forEach_Forall. intros p. apply Forall_one, notClass_param.
    + destruct (returns M) as [r|]; [|constructor].
      destruct (_ && _); [|constructor]. apply Forall_one, notClass_returns.
    + destruct (hasLength (throws M)); [|constructor].
      apply forEach_Forall. intros t. apply Forall_one, notClass_throws.
    + destruct (hasLength (examples M)); [|constructor].
      apply forEach_Forall. intros ex. apply Forall_one, notClass_example.
Qed.

(** C10. Both operations dispatch on the truthiness of [name] alone.  Past
    the description (and its separator), the reconciliation emits a line
    that is a class marker if and only if [name] is truthy; past the
    description slot, the fresh builder does so if and only if [name] is
    truthy.  No other field of the metadata takes part. *)
Theorem class_form_iff_name (E : list string) (M : InferredJSDoc) :
  (exists tagLines,
     updateJSDocBlock E M =
       descriptionLines (mainDescription (parseExisting E)) M
       ++ separatorLines (existingTags (parseExisting E)) M
            (descriptionLines (mainDescription (parseExisting E)) M)
       ++ tagLines
     /\ (Exists (fun line => isClassMarker line = true) tagLines
         <-> truthy (name M) = true))
  /\ (exists tagSlots,
        buildJSDocLines M = description M :: tagSlots
        /\ (Exists (fun slot => isClassMarkerSlot slot = true) tagSlots
            <-> truthy (name M) = true)).
Proof.
  split.
  - set (st := parseExisting E). set (tags := existingTags st).
    assert (Hwf : wellFiled tags) by apply parse_wellFiled.
    exists (classLines tags M ++ constructorLines tags M ++ paramLines tags M
            ++ returnsLines tags M ++ throwsLines tags M
            ++ exampleLines tags M ++ otherLines tags).
    split; [apply updateJSDocBlock_sections|].
    pose proof (classLines_marker tags M Hwf) as Hc.
    destruct (truthy (name M)).
    + destruct Hc as (marker & rest & -> & Hm).
      split; [reflexivity|]. intros _. apply Exists_cons_hd. exact Hm.
    + rewrite Hc. split; [|discriminate]. intros Hex. exfalso.
      revert Hex. apply Exists_notClass_false. simpl.
      repeat (apply Forall_app; split).
      * apply constructorLines_notClass, Hwf.
      * apply paramLines_notClass.
      * apply returnsLines_notClass.
      * apply throwsLines_notClass, Hwf.
      * apply exampleLines_notClass.
      * apply otherLines_notClass, Hwf.
  - destruct (truthy (name M)) eqn:Hn.
    + unfold buildJSDocLines. rewrite Hn. cbn zeta. simpl app.
      eexists. split; [reflexivity|]. split; [reflexivity|].
      intros _. apply Exists_cons_hd. reflexivity.
    + destruct (buildJSDocLines_function M Hn) as (lines & -> & Hall).
      eexists. split; [reflexivity|]. split; [|discriminate].
      intros Hex. exfalso. revert Hex. apply slots_no_marker, Hall.
Qed.

(** The description is pushed verbatim and is no tag emission: a description
    that reads like a marker does not make the metadata a class. *)
Example description_may_look_like_a_marker :
  buildJSDocLines
    {| name := None; functionName := Some "f"; description := Some "@class";
       params := None; returns := None; throws := None; examples := None;
       constructorDescription := None; constructorParams := None;
       extendsClass := None |}
  = [Some "@class"].
Proof. vm_compute. reflexivity. Qed.

(** * Further properties of the builder *)

(** ** Placeholder replacement *)

(** X1. When the existing lines give no main description, or one that
    contains the placeholder sentence, and the metadata's description is
    truthy and not the placeholder, the output opens with the metadata's
    description. *)
Theorem placeholder_description_replaced (E : list string) (M : InferredJSDoc)
    (d : string) :
  mainDescription (parseExisting E) = ""
  \/ includes (mainDescription (parseExisting E)) placeholderDesc = true ->
  description M = Some d -> d <> "" -> d <> placeholderDesc ->
  exists rest, updateJSDocBlock E M = d :: rest.
Proof.
  intros Hmd Hd Hne Hph.
  rewrite updateJSDocBlock_sections. cbn zeta.
  unfold descriptionLines. rewrite Hd.
  apply truthyStr_true in Hne. apply negb_eqb_true in Hph.
  rewrite Hne, Hph. simpl andb. cbv iota.
  assert (Hex : isEmpty (mainDescription (parseExisting E))
                || includes (mainDescription (parseExisting E)) placeholderDesc
                = true).
  { destruct Hmd as [-> | ->]; [reflexivity | apply orb_true_r]. }
  rewrite Hex. simpl negb. cbv iota. eexists. reflexivity.
Qed.

Lemma placeholder_description_replaced_witness :
  (mainDescription (parseExisting ["Description placeholder."]) = ""
   \/ includes (mainDescription (parseExisting ["Description placeholder."]))
        placeholderDesc = true)
  /\ description scenarioA_metadata = Some "AI text"
  /\ "AI text" <> "" /\ "AI text" <> placeholderDesc
  /\ exists rest,
       updateJSDocBlock ["Description placeholder."] scenarioA_metadata
       = "AI text" :: rest.
Proof.
  assert (H1 : mainDescription (parseExisting ["Description placeholder."]) = ""
               \/ includes
                    (mainDescription (parseExisting ["Description placeholder."]))
                    placeholderDesc = true)
    by (right; vm_compute; reflexivity).
  assert (H2 : description scenarioA_metadata = Some "AI text") by reflexivity.
  assert (H3 : "AI text" <> "") by discriminate.
  assert (H4 : "AI text" <> placeholderDesc) by discriminate.
  repeat (split; [assumption|]).
  exact (placeholder_description_replaced _ _ _ H1 H2 H3 H4).
Defined.

(** ** What the parser does not see *)

Lemma parseLine_trim st l : parseLine st (trim l) = parseLine st l.
Proof. unfold parseLine. rewrite trim_idem. reflexivity. Qed.

Lemma parseLine_blank st l : notBlank l = false -> parseLine st l = st.
Proof.
  unfold notBlank, parseLine. intros Hb. apply negb_false_iff in Hb.
  destruct (trim l); [|discriminate]. reflexivity.
Qed.

Lemma parseExisting_normalized (E : list string) :
  parseExisting (map trim (List.filter notBlank E)) = parseExisting E.
Proof.
  unfold parseExisting. generalize initialState.
  induction E as [|l E IH]; intros st; [reflexivity|]. simpl.
  destruct (notBlank l) eqn:Hl; simpl.
  - rewrite parseLine_trim. apply IH.
  - rewrite (parseLine_blank _ _ Hl). apply IH.
Qed.

(** X2. Outer white space of the existing lines and blank lines among them
    do not matter: the reconciliation of the trimmed non-blank lines is the
    reconciliation of the lines. *)
Theorem existing_lines_normalized (E : list string) (M : InferredJSDoc) :
  updateJSDocBlock (map trim (List.filter notBlank E)) M
  = updateJSDocBlock E M.
Proof.
  unfold updateJSDocBlock. rewrite parseExisting_normalized. reflexivity.
Qed.

(** ** The map of parsed tags *)

(** X3. Every group of the map built from the existing lines is non-empty,
    its key is a managed name or [other], and each of its entries holds a
    trimmed line that starts with [@]: the lookups by index 0 are in range,
    and no group exists under [constructor], [augments] or [extends]. *)
Theorem parsed_groups_invariant (E : list string) (k : string)
    (group : list TagEntry) :
  existingTags (parseExisting E) !! k = Some group ->
  group <> []
  /\ (has MANAGED_JSDOC_TAGS k = true \/ k = "other")
  /\ Forall (fun e => trim (originalLine e) = originalLine e
                      /\ startsWith (originalLine e) "@" = true) group.
Proof.
  intros Hk. pose proof (parse_wellFiled E) as Hwf.
  destruct (Hwf _ _ Hk) as [Hne Hall]. split; [exact Hne|]. split.
  - apply (wellFiled_keys _ _ _ Hwf Hk).
  - eapply Forall_impl; [exact Hall|]. intros e (H1 & H2 & _). auto.
Qed.

Lemma parsed_groups_invariant_witness :
  existingTags (parseExisting scenarioA_existing) !! "param"
  = Some [{| originalLine := "@param {string} name - The string value of name.";
             content := "{string} name - The string value of name." |}]
  /\ ([{| originalLine := "@param {string} name - The string value of name.";
          content := "{string} name - The string value of name." |}] <> []
      /\ (has MANAGED_JSDOC_TAGS "param" = true \/ "param" = "other")
      /\ Forall (fun e => trim (originalLine e) = originalLine e
                          /\ startsWith (originalLine e) "@" = true)
           [{| originalLine := "@param {string} name - The string value of name.";
               content := "{string} name - The string value of name." |}]).
Proof.
  assert (H : existingTags (parseExisting scenarioA_existing) !! "param"
              = Some [{| originalLine :=
                           "@param {string} name - The string value of name.";
                         content :=
                           "{string} name - The string value of name." |}])
    by (vm_compute; reflexivity).
  split; [exact H|].
  exact (parsed_groups_invariant scenarioA_existing "param" _ H).
Defined.

(** One step of the parser appends the line to the group of its key. *)
Lemma groupLines_parseLine st l k :
  groupLines (existingTags (parseLine st l)) k =
  groupLines (existingTags st) k ++ (if filedUnder k l then [trim l] else []).
Proof.
  unfold parseLine, filedUnder, tagOfLine.
  destruct (startsWith (trim l) "@").
  - assert (Hpush : forall key e,
              groupLines (pushEntry key e (existingTags st)) k =
              groupLines (existingTags st) k
              ++ (if String.eqb key k then [originalLine e] else [])).
    { intros key e. unfold groupLines, pushEntry.
      destruct (String.eqb_spec key k) as [->|Hne].
      - rewrite lookup_insert_eq.
        destruct (existingTags st !! k); simpl; [rewrite map_app|]; reflexivity.
      - rewrite lookup_insert_ne by exact Hne. rewrite app_nil_r. reflexivity. }
    destruct (has MANAGED_JSDOC_TAGS (tagNameOf (trim l))); simpl existingTags;
      rewrite Hpush; reflexivity.
  - rewrite app_nil_r.
    destruct (negb (isEmpty (trim l)) && negb (foundMainDescription st));
      reflexivity.
Qed.

Lemma groupLines_fold E st k :
  groupLines (existingTags (fold_left parseLine E st)) k =
  groupLines (existingTags st) k ++ map trim (List.filter (filedUnder k) E).
Proof.
  revert st. induction E as [|l E IH]; intros st; simpl.
  - rewrite app_nil_r. reflexivity.
  - rewrite IH, groupLines_parseLine, <- app_assoc.
    destruct (filedUnder k l); reflexivity.
Qed.

Lemma groupLines_parseExisting (E : list string) (k : string) :
  groupLines (existingTags (parseExisting E)) k
  = map trim (List.filter (filedUnder k) E).
Proof. unfold parseExisting. rewrite groupLines_fold. reflexivity. Qed.

(** X4. The parser loses no tag line and keeps the order: under every key
    the map holds, as original lines, exactly the trimmed lines of the input
    that are filed under that key, in the order of the input. *)
Theorem groups_hold_tag_lines (E : list string) (k : string) :
  groupLines (existingTags (parseExisting E)) k
  = map trim (List.filter (filedUnder k) E).
Proof. apply groupLines_parseExisting. Qed.

(** ** Class and constructor steps *)

Lemma groupLines_lookup tags k :
  wellFiled tags ->
  match tags !! k with
  | Some group => groupLines tags k = originalLine (entry0 group)
                                      :: map originalLine (tl group)
  | None => groupLines tags k = []
  end.
Proof.
  intros Hwf. unfold groupLines. destruct (tags !! k) as [group|] eqn:Hk;
    [|reflexivity].
  destruct (Hwf _ _ Hk) as [Hne _]. destruct group; [congruence|reflexivity].
Qed.

(** X5. For metadata with a truthy name the class step emits the first
    existing line filed under [class], trimmed, or [@class] when there is
    none, and then, for a truthy [extendsClass], always the canonical
    [@augments] line: existing [@augments] and [@extends] lines are filed
    under [other] and never consulted. *)
Theorem class_step (E : list string) (M : InferredJSDoc) :
  truthy (name M) = true ->
  classLines (existingTags (parseExisting E)) M =
  hd "@class" (map trim (List.filter (filedUnder "class") E))
  :: whenTruthy (extendsClass M) (fun ext => ["@augments " +:+ ext]).
Proof.
  intros Hn. pose proof (parse_wellFiled E) as Hwf.
  unfold classLines. rewrite Hn.
  assert (Haug : existingTags (parseExisting E) !! "augments" = None).
  { destruct (_ !! "augments") as [g|] eqn:Hg; [|reflexivity].
    destruct (wellFiled_keys _ _ _ Hwf Hg); discriminate. }
  assert (Hext : existingTags (parseExisting E) !! "extends" = None).
  { destruct (_ !! "extends") as [g|] eqn:Hg; [|reflexivity].
    destruct (wellFiled_keys _ _ _ Hwf Hg); discriminate. }
  rewrite Haug, Hext.
  rewrite <- groupLines_parseExisting.
  pose proof (groupLines_lookup _ "class" Hwf) as Hc.
  destruct (existingTags (parseExisting E) !! "class") as [group|];
    rewrite Hc; simpl; unfold whenTruthy;
    destruct (extendsClass M) as [ext|]; try reflexivity;
    destruct (truthyStr ext); reflexivity.
Qed.

Lemma class_step_witness :
  truthy (name scenarioC_metadata) = true
  /\ classLines (existingTags (parseExisting ["A user."; "@class User"]))
       scenarioC_metadata
     = hd "@class"
         (map trim (List.filter (filedUnder "class") ["A user."; "@class User"]))
       :: whenTruthy (extendsClass scenarioC_metadata)
            (fun ext => ["@augments " +:+ ext]).
Proof.
  assert (H : truthy (name scenarioC_metadata) = true) by reflexivity.
  split; [exact H|].
  exact (class_step ["A user."; "@class User"] scenarioC_metadata H).
Defined.

(** X6. For a truthy constructor description the constructor line comes
    from the metadata alone: it is [@constructor] followed by the
    description, or absent when the description is the generic placeholder.
    Existing [@constructor] lines are filed under [other] and never reused.
    The constructor's parameter lines follow. *)
Theorem constructor_step (E : list string) (M : InferredJSDoc) (cd : string) :
  constructorDescription M = Some cd -> cd <> "" ->
  constructorLines (existingTags (parseExisting E)) M =
  (if String.eqb cd constructorDescPlaceholder then []
   else ["@constructor " +:+ cd])
  ++ forEach (constructorParams M)
       (constructorParamLine (existingTags (parseExisting E))).
Proof.
  intros Hcd Hne. pose proof (parse_wellFiled E) as Hwf.
  unfold constructorLines. rewrite Hcd.
  apply truthyStr_true in Hne. rewrite Hne.
  rewrite (wellFiled_no_constructor _ Hwf). simpl mbind. simpl andb.
  f_equal.
  - destruct (String.eqb cd constructorDescPlaceholder); reflexivity.
  - destruct (constructorParams M) as [[|p ps]|]; reflexivity.
Qed.

Lemma constructor_step_witness :
  constructorDescription scenarioC_metadata = Some "Creates a user."
  /\ "Creates a user." <> ""
  /\ constructorLines
       (existingTags (parseExisting ["@constructor Builds it."]))
       scenarioC_metadata
     = (if String.eqb "Creates a user." constructorDescPlaceholder then []
        else ["@constructor " +:+ "Creates a user."])
       ++ forEach (constructorParams scenarioC_metadata)
            (constructorParamLine
               (existingTags (parseExisting ["@constructor Builds it."]))).
Proof.
  assert (H1 : constructorDescription scenarioC_metadata
               = Some "Creates a user.") by reflexivity.
  assert (H2 : "Creates a user." <> "") by discriminate.
  split; [exact H1|]. split; [exact H2|].
  exact (constructor_step ["@constructor Builds it."] scenarioC_metadata _ H1 H2).
Defined.

(** X7. In the constructor's parameter lines the comparison with the
    placeholder never fires: an entry whose content begins with
    [{type} name] cannot be the placeholder text, so the first such entry
    always supplies the text after the name, placeholder or not. *)
Theorem constructor_param_reuses_existing
    (tags : gmap string (list TagEntry)) (param : Param)
    (group : list TagEntry) (e : TagEntry) :
  tags !! "param" = Some group ->
  List.find (fun p => startsWith (content p) (paramSignature param)) group
  = Some e ->
  constructorParamLine tags param
  = ["@param " +:+ paramSignature param +:+ " " +:+ afterName param e].
Proof.
  intros Hg Hf. unfold constructorParamLine. rewrite Hg.
  unfold mbind, option_bind. rewrite Hf. apply find_some in Hf as [_ Hs].
  assert (Hne : String.eqb (content e) (placeholderParamDesc param) = false).
  { apply String.eqb_neq. intros Heq. rewrite Heq in Hs.
    unfold placeholderParamDesc, paramSignature in Hs. simpl in Hs.
    discriminate. }
  rewrite Hne. reflexivity.
Qed.

Lemma constructor_param_reuses_existing_witness :
  let tags := existingTags (parseExisting scenarioA_existing) in
  let param := {| p_name := "name"; p_type := "string";
                  p_description := "The full legal name." |} in
  let e := {| originalLine := "@param {string} name - The string value of name.";
              content := "{string} name - The string value of name." |} in
  tags !! "param" = Some [e]
  /\ List.find (fun p => startsWith (content p) (paramSignature param)) [e]
     = Some e
  /\ constructorParamLine tags param
     = ["@param " +:+ paramSignature param +:+ " " +:+ afterName param e].
Proof.
  intros tags param e.
  assert (H1 : tags !! "param" = Some [e]) by (vm_compute; reflexivity).
  assert (H2 : List.find
                 (fun p => startsWith (content p) (paramSignature param)) [e]
               = Some e) by (vm_compute; reflexivity).
  split; [exact H1|]. split; [exact H2|].
  exact (constructor_param_reuses_existing tags param [e] e H1 H2).
Defined.

(** ** Parameters and examples *)

(** X8. The parameter step emits one line per parameter of the metadata,
    in the metadata's order.  Every line is [@param {type} name - ] with the
    metadata's type and name, followed either by the metadata's description
    or by the text cut from an existing parameter entry whose content
    includes [{type} name] and not the placeholder: what follows the first
    occurrence of the name in that content, trimmed, with one leading
    hyphen removed. *)
Theorem param_lines_shape (tags : gmap string (list TagEntry))
    (M : InferredJSDoc) :
  exists descriptions : list string,
    Forall2
      (fun param d =>
         d = p_description param
         \/ exists group e,
              tags !! "param" = Some group /\ In e group
              /\ includes (content e) (paramSignature param) = true
              /\ includes (content e) (placeholderParamDesc param) = false
              /\ d = existingParamText param e)
      (default [] (params M)) descriptions
    /\ paramLines tags M =
       zip_with (fun param d => "@param " +:+ paramSignature param +:+ " - " +:+ d)
         (default [] (params M)) descriptions.
Proof.
  unfold paramLines, forEach. destruct (params M) as [ps|]; simpl default.
  - induction ps as [|p ps (ds & Hall & Hds)].
    + exists []. split; [constructor | reflexivity].
    + assert (Hp : exists d,
                (d = p_description p
                 \/ exists group e,
                      tags !! "param" = Some group /\ In e group
                      /\ includes (content e) (paramSignature p) = true
                      /\ includes (content e) (placeholderParamDesc p) = false
                      /\ d = existingParamText p e)
                /\ paramLine tags p =
                   ["@param " +:+ paramSignature p +:+ " - " +:+ d]).
      { unfold paramLine, canonicalParamLine.
        destruct (tags !! "param") as [group|] eqn:Hg; unfold mbind, option_bind;
          [|exists (p_description p); auto].
        destruct (List.find _ group) as [e|] eqn:Hf;
          [|exists (p_description p); auto].
        apply find_some in Hf as [Hin Hsig].
        destruct (includes (content e) (placeholderParamDesc p)) eqn:Hph;
          simpl negb; cbv iota; [exists (p_description p); auto|].
        exists (existingParamText p e). split; [|reflexivity].
        right. exists group, e. auto. }
      destruct Hp as (d & Hd & Hline). exists (d :: ds). split.
      * constructor; assumption.
      * simpl. rewrite Hline, Hds. reflexivity.
  - exists []. split; [constructor | reflexivity].
Qed.

(** The text cut from an existing entry starts after the first occurrence
    of the name, which lies inside the type when the type contains the
    name. *)
Example param_text_cut_inside_type :
  updateJSDocBlock ["@param {number} n - how many"]
    (functionMetadata "repeat" "Description placeholder."
       [{| p_name := "n"; p_type := "number";
           p_description := "The number value of n." |}]
       {| r_type := "void"; r_description := "The result of the operation." |}
       [] [])
  = ["@param {number} n - umber} n - how many"].
Proof. vm_compute. reflexivity. Qed.

(** X9. Every line of the example step is [@example] followed by an example
    of the metadata that contains a fence marker and whose normalized
    content matches no existing example entry; an example without a fence
    is never emitted. *)
Theorem example_lines_provenance (tags : gmap string (list TagEntry))
    (M : InferredJSDoc) :
  Forall (fun line =>
            exists ex, In ex (default [] (examples M))
                       /\ line = "@example " +:+ ex
                       /\ includes ex "```" = true
                       /\ matchesExisting tags ex = false)
    (exampleLines tags M).
Proof.
  unfold exampleLines, forEach. destruct (examples M) as [exs|]; simpl default;
    [|constructor].
  induction exs as [|ex exs IH]; simpl; [constructor|].
  apply Forall_app. split.
  - unfold exampleLine. fold (matchesExisting tags ex).
    destruct (matchesExisting tags ex) eqn:Hm; simpl; [constructor|].
    destruct (includes ex "```") eqn:Hi; [|constructor].
    apply Forall_one. exists ex. auto.
  - eapply Forall_impl; [exact IH|]. intros line (x & Hx & H). exists x.
    split; [right; exact Hx | exact H].
Qed.

(** ** The lines of the extractor *)

Lemma noLineFeed_trimStart s : noLineFeed s = true -> noLineFeed (trimStart s) = true.
Proof.
  induction s as [|c r IH]; [reflexivity|]. intros H. simpl.
  destruct (isWhiteSpace c); [|exact H].
  simpl in H. apply andb_true_iff in H as [_ H]. apply IH, H.
Qed.

Lemma noLineFeed_trimEnd s : noLineFeed s = true -> noLineFeed (trimEnd s) = true.
Proof.
  induction s as [|c r IH]; [reflexivity|]. intros H. simpl in *.
  apply andb_true_iff in H as [Hc H].
  destruct (isWhiteSpace c && isEmpty (trimEnd r)); [reflexivity|].
  simpl. rewrite Hc. apply IH, H.
Qed.

Lemma noLineFeed_trim s : noLineFeed s = true -> noLineFeed (trim s) = true.
Proof. intros H. apply noLineFeed_trimEnd, noLineFeed_trimStart, H. Qed.

Lemma noLineFeed_dropChars n s :
  noLineFeed s = true -> noLineFeed (dropChars n s) = true.
Proof.
  revert s. induction n as [|n IH]; intros s H; [exact H|].
  destruct s as [|c r]; [reflexivity|]. simpl in *.
  apply andb_true_iff in H as [_ H]. apply IH, H.
Qed.

Lemma noLineFeed_cleanLine s :
  noLineFeed s = true -> noLineFeed (cleanLine s) = true.
Proof.
  intros H. unfold cleanLine. destruct (startsWith (trim s) "*").
  - apply noLineFeed_trim. unfold substring.
    apply noLineFeed_dropChars, noLineFeed_trim, H.
  - apply noLineFeed_trim, H.
Qed.

Lemma split_noLineFeed s :
  Forall (fun line => noLineFeed line = true) (split "010" s).
Proof.
  induction s as [|c r IH]; simpl.
  - constructor; [reflexivity | constructor].
  - destruct (Ascii.eqb c "010") eqn:Hc.
    + constructor; [reflexivity | exact IH].
    + destruct (split "010" r) as [|h t].
      * constructor; [simpl; rewrite Hc; reflexivity | constructor].
      * inversion IH as [|? ? Hh Ht]; subst.
        constructor; [simpl; rewrite Hc; exact Hh | exact Ht].
Qed.

Lemma Forall_removelast {A} (P : A -> Prop) (l : list A) :
  Forall P l -> Forall P (removelast l).
Proof.
  induction 1 as [|x l Hx Hl IH]; [constructor|].
  simpl. destruct l; [constructor|]. constructor; assumption.
Qed.

(** X10. Every line the extractor returns is a single physical line without
    outer white space: it contains no line feed and trimming leaves it
    unchanged. *)
Theorem extracted_lines_clean (comments : option (list Comment))
    (lines : list string) :
  getJSDocBlocks comments = Some lines ->
  Forall (fun line => trim line = line /\ noLineFeed line = true) lines.
Proof.
  intros H.
  assert (Hn : forall v,
            Forall (fun line => trim line = line /\ noLineFeed line = true)
              (normalizeComment v)).
  { intros v. unfold normalizeComment.
    assert (H0 : Forall (fun line => trim line = line /\ noLineFeed line = true)
                   (map cleanLine (split "010" v))).
    { pose proof (split_noLineFeed v) as Hs.
      induction Hs as [|x l Hx _ IH]; simpl; constructor; [|exact IH].
      split; [apply cleanLine_trimmed | apply noLineFeed_cleanLine, Hx]. }
    assert (H1 : Forall (fun line => trim line = line /\ noLineFeed line = true)
                   (dropLeadingEmpty (map cleanLine (split "010" v)))).
    { unfold dropLeadingEmpty. destruct H0 as [|x l Hx Hl]; [constructor|].
      destruct (isEmpty x); [exact Hl | constructor; assumption]. }
    unfold dropEndMarker. destruct (last _) as [x|]; [|exact H1].
    destruct (String.eqb x "*/" || String.eqb x "/"); [|exact H1].
    apply Forall_removelast, H1. }
  destruct comments as [[|c cs]|]; try discriminate.
  unfold getJSDocBlocks in H.
  destruct (List.find isJSDocComment (c :: cs)); [|discriminate].
  injection H as <-. apply Hn.
Qed.

Lemma extracted_lines_clean_witness :
  let comments :=
    Some [{| c_type := CommentBlock;
             c_value := "*" +:+ nl +:+ "   * Adds.  " +:+ nl +:+ " " |}] in
  getJSDocBlocks comments = Some ["Adds."; ""]
  /\ Forall (fun line => trim line = line /\ noLineFeed line = true)
       ["Adds."; ""].
Proof.
  intros comments.
  assert (H : getJSDocBlocks comments = Some ["Adds."; ""])
    by (vm_compute; reflexivity).
  split; [exact H|]. exact (extracted_lines_clean comments _ H).
Defined.

(** ** Writing a block and reading it back *)

Lemma append_assoc (a b c : string) : (a +:+ b) +:+ c = a +:+ b +:+ c.
Proof.
  induction a as [|x a IH]; [reflexivity|].
  change (String x ((a +:+ b) +:+ c) = String x (a +:+ b +:+ c)).
  rewrite IH. reflexivity.
Qed.

Lemma noLineFeed_append a b :
  noLineFeed a = true -> noLineFeed b = true -> noLineFeed (a +:+ b) = true.
Proof.
  intros Ha Hb. induction a as [|x a IH]; [exact Hb|].
  change (noLineFeed (String x (a +:+ b)) = true). simpl in *.
  apply andb_true_iff in Ha as [Hx Ha]. rewrite Hx. apply IH, Ha.
Qed.

Lemma split_line w r :
  noLineFeed w = true ->
  split "010" (w +:+ String "010" r) = w :: split "010" r.
Proof.
  intros Hw. induction w as [|c w IH]; [reflexivity|]. simpl in Hw.
  apply andb_true_iff in Hw as [Hc Hw]. apply negb_true_iff in Hc.
  change (String c w +:+ String "010" r) with (String c (w +:+ String "010" r)).
  simpl. rewrite Hc, (IH Hw). reflexivity.
Qed.

Lemma split_single w : noLineFeed w = true -> split "010" w = [w].
Proof.
  intros Hw. induction w as [|c w IH]; [reflexivity|]. simpl in Hw.
  apply andb_true_iff in Hw as [Hc Hw]. apply negb_true_iff in Hc.
  simpl. rewrite Hc, (IH Hw). reflexivity.
Qed.

Lemma trimmed_trimEnd l : trim l = l -> trimEnd l = l.
Proof.
  intros Hl. destruct l as [|c r]; [reflexivity|].
  destruct (trim_head (String c r)) as [H | (c' & r' & H & Hc')];
    rewrite Hl in H; [discriminate|]. injection H as -> ->.
  unfold trim in Hl. simpl trimStart in Hl. rewrite Hc' in Hl. exact Hl.
Qed.

Lemma trimEnd_blank_keep s :
  isEmpty (trimEnd s) = false -> trimEnd (String " " s) = String " " (trimEnd s).
Proof. intros H. simpl. rewrite H. reflexivity. Qed.

(** The clean-up undoes the continuation marker put before a line. *)
Lemma cleanLine_continuation l : trim l = l -> cleanLine (" * " +:+ l) = l.
Proof.
  intros Hl. pose proof (trimmed_trimEnd l Hl) as He.
  destruct l as [|c r]; [reflexivity|].
  assert (Hc : isWhiteSpace c = false).
  { destruct (trim_head (String c r)) as [H | (c' & r' & H & Hc')];
      rewrite Hl in H; [discriminate|]. injection H as -> ->. exact Hc'. }
  assert (Ht : trim (" * " +:+ String c r) = "* " +:+ String c r).
  { unfold trim. simpl trimStart.
    rewrite trimEnd_nonspace by reflexivity.
    change (" " +:+ String c r) with (String " " (String c r)).
    rewrite trimEnd_blank_keep by (rewrite He; reflexivity).
    rewrite He. reflexivity. }
  unfold cleanLine. rewrite Ht.
  change (startsWith ("* " +:+ String c r) "*") with true. cbv iota.
  change (substring 1 ("* " +:+ String c r)) with (String " " (String c r)).
  unfold trim. simpl trimStart. rewrite Hc. exact He.
Qed.

Lemma join_cons sep l l' ls :
  join sep (l :: l' :: ls) = l +:+ sep +:+ join sep (l' :: ls).
Proof. reflexivity. Qed.

(** The physical lines of the text written for a non-empty line list. *)
Lemma split_written l ls :
  Forall (fun line => noLineFeed line = true) (l :: ls) ->
  split "010" (" * " +:+ join (nl +:+ " * ") (l :: ls) +:+ nl +:+ " ")
  = map (String.append " * ") (l :: ls) ++ [" "].
Proof.
  revert l. induction ls as [|l' ls IH]; intros l Hall;
    inversion Hall as [|? ? Hl Hls]; subst.
  - replace (" * " +:+ join (nl +:+ " * ") [l] +:+ nl +:+ " ")
      with ((" * " +:+ l) +:+ String "010" " ")
      by (rewrite append_assoc; reflexivity).
    rewrite split_line
      by (apply (noLineFeed_append " * " l); [reflexivity | exact Hl]).
    reflexivity.
  - rewrite join_cons.
    replace (" * " +:+ (l +:+ (nl +:+ " * ") +:+ join (nl +:+ " * ") (l' :: ls))
             +:+ nl +:+ " ")
      with ((" * " +:+ l) +:+
            String "010" (" * " +:+ join (nl +:+ " * ") (l' :: ls) +:+ nl +:+ " ")).
    + rewrite split_line
        by (apply (noLineFeed_append " * " l); [reflexivity | exact Hl]).
      rewrite (IH l' Hls). reflexivity.
    + rewrite !append_assoc. reflexivity.
Qed.

Lemma map_default_Some (lines : list string) :
  map (default "") (Some <$> lines) = lines.
Proof.
  induction lines as [|l ls IH]; [reflexivity|].
  rewrite fmap_cons. simpl map. f_equal. exact IH.
Qed.

Lemma normalizeComment_written (lines : list string) :
  lines <> [] ->
  Forall (fun line => trim line = line /\ noLineFeed line = true) lines ->
  normalizeComment (newCommentContent (Some <$> lines)) = lines ++ [""].
Proof.
  intros Hne Hall. destruct lines as [|l ls]; [congruence|].
  unfold newCommentContent. rewrite map_default_Some.
  unfold normalizeComment.
  change ("*" +:+ nl +:+ " * " +:+ join (nl +:+ " * ") (l :: ls) +:+ nl +:+ " ")
    with ("*" +:+ String "010"
                    (" * " +:+ join (nl +:+ " * ") (l :: ls) +:+ nl +:+ " ")).
  rewrite split_line by reflexivity.
  rewrite split_written
    by (eapply Forall_impl; [exact Hall|]; intros x [_ Hx]; exact Hx).
  rewrite map_cons, map_app.
  change (cleanLine "*") with EmptyString.
  change (map cleanLine [" "]) with [EmptyString].
  assert (Hc : map cleanLine (map (String.append " * ") (l :: ls)) = l :: ls).
  { clear Hne. induction Hall as [|x xs [Hx _] _ IH]; [reflexivity|].
    simpl map. rewrite IH. f_equal. apply cleanLine_continuation, Hx. }
  rewrite Hc.
  change (dropLeadingEmpty (EmptyString :: (l :: ls) ++ [EmptyString]))
    with ((l :: ls) ++ [EmptyString]).
  unfold dropEndMarker. rewrite last_snoc. reflexivity.
Qed.

(** X11. Reading back a written block: for a non-empty list of lines, each
    without line feed and without outer white space, the extractor's
    normalization of the comment text written for them returns the lines
    followed by one empty line. *)
Theorem written_block_read_back (lines : list string) :
  lines <> [] ->
  Forall (fun line => trim line = line /\ noLineFeed line = true) lines ->
  normalizeComment (newCommentContent (Some <$> lines)) = lines ++ [""].
Proof. apply normalizeComment_written. Qed.

Lemma written_block_read_back_witness :
  ["Adds two numbers."; ""; "@returns {number} The sum."] <> []
  /\ Forall (fun line => trim line = line /\ noLineFeed line = true)
       ["Adds two numbers."; ""; "@returns {number} The sum."]
  /\ normalizeComment
       (newCommentContent
          (Some <$> ["Adds two numbers."; ""; "@returns {number} The sum."]))
     = ["Adds two numbers."; ""; "@returns {number} The sum."] ++ [""].
Proof.
  assert (H1 : ["Adds two numbers."; ""; "@returns {number} The sum."] <> [])
    by discriminate.
  assert (H2 : Forall (fun line => trim line = line /\ noLineFeed line = true)
                 ["Adds two numbers."; ""; "@returns {number} The sum."])
    by (repeat constructor).
  split; [exact H1|]. split; [exact H2|].
  exact (written_block_read_back _ H1 H2).
Defined.

(** ** The per-node step *)

Lemma getJSDocBlocks_find (comments : list Comment) :
  getJSDocBlocks (Some comments) =
  match List.find isJSDocComment comments with
  | Some c => Some (normalizeComment (c_value c))
  | None => None
  end.
Proof. destruct comments; reflexivity. Qed.

Lemma findIndex_None {A} (f : A -> bool) (l : list A) :
  findIndex f l = None -> Forall (fun x => f x = false) l.
Proof.
  induction l as [|x l IH]; simpl; [constructor|].
  destruct (f x) eqn:Hx; [discriminate|].
  destruct (findIndex f l); [discriminate|]. intros _. constructor; auto.
Qed.

Lemma findIndex_Some {A} (f : A -> bool) (l : list A) (i : nat) :
  findIndex f l = Some i ->
  exists x, l !! i = Some x /\ f x = true
            /\ forall y, f y = true -> List.find f (<[i := y]> l) = Some y.
Proof.
  revert i. induction l as [|x l IH]; intros i; simpl; [discriminate|].
  destruct (f x) eqn:Hx.
  - intros [= <-]. exists x. split; [reflexivity|]. split; [exact Hx|].
    intros y Hy. simpl. rewrite Hy. reflexivity.
  - destruct (findIndex f l) as [j|]; [|discriminate]. intros [= <-].
    destruct (IH j eq_refl) as (z & Hz & Hfz & Hins). exists z.
    split; [exact Hz|]. split; [exact Hfz|].
    intros y Hy. simpl. rewrite Hx. apply Hins, Hy.
Qed.

Lemma newCommentContent_marked lines :
  startsWith (newCommentContent lines) "*" = true.
Proof. reflexivity. Qed.

(** X12. When the per-node step modifies a node, the block the extractor
    then finds on the node is the one just written.  The new comment takes
    the place of the first existing documentation comment, all other
    comments staying where they are, or is put in front of the comments
    when none of them is a documentation comment. *)
Theorem written_comment_is_found (options : Options)
    (leadingComments : option (list Comment)) (M : InferredJSDoc)
    (comments' : option (list Comment)) :
  processNode options leadingComments (Some M) = (comments', true) ->
  let newComment :=
    {| c_type := CommentBlock;
       c_value :=
         newCommentContent
           (newJSDocLinesFor (getJSDocBlocks leadingComments) options M) |} in
  getJSDocBlocks comments' = Some (normalizeComment (c_value newComment))
  /\ ((exists i old,
         default [] leadingComments !! i = Some old
         /\ isJSDocComment old = true
         /\ comments' = Some (<[i := newComment]> (default [] leadingComments)))
      \/ (Forall (fun c => isJSDocComment c = false) (default [] leadingComments)
          /\ comments' = Some (newComment :: default [] leadingComments))).
Proof.
  intros H newComment. unfold processNode in H. cbv zeta in H.
  destruct (onlyNew options && _); [discriminate|].
  destruct (0 <? _); [|discriminate].
  fold newComment in H.
  destruct (findIndex isJSDocComment (default [] leadingComments)) as [i|] eqn:Hi.
  - injection H as <-.
    destruct (findIndex_Some _ _ _ Hi) as (old & Hold & Hf & Hins).
    split.
    + rewrite getJSDocBlocks_find, (Hins newComment) by reflexivity.
      reflexivity.
    + left. exists i, old. auto.
  - injection H as <-. split.
    + rewrite getJSDocBlocks_find. reflexivity.
    + right. split; [apply findIndex_None, Hi | reflexivity].
Qed.

Lemma written_comment_is_found_witness :
  let options := {| onlyNew := false; overwriteAllJsdoc := false |} in
  let comments :=
    Some [{| c_type := CommentLine; c_value := " eslint-disable" |};
          {| c_type := CommentBlock; c_value := "* Adds two numbers. " |}] in
  let newComment :=
    {| c_type := CommentBlock;
       c_value :=
         newCommentContent
           (newJSDocLinesFor (getJSDocBlocks comments) options addMetadata) |} in
  let comments' :=
    Some [{| c_type := CommentLine; c_value := " eslint-disable" |};
          newComment] in
  processNode options comments (Some addMetadata) = (comments', true)
  /\ getJSDocBlocks comments' = Some (normalizeComment (c_value newComment))
  /\ ((exists i old,
         default [] comments !! i = Some old
         /\ isJSDocComment old = true
         /\ comments' = Some (<[i := newComment]> (default [] comments)))
      \/ (Forall (fun c => isJSDocComment c = false) (default [] comments)
          /\ comments' = Some (newComment :: default [] comments))).
Proof.
  intros options comments newComment comments'.
  assert (H : processNode options comments (Some addMetadata)
              = (comments', true)) by (vm_compute; reflexivity).
  split; [exact H|].
  exact (written_comment_is_found options comments addMetadata comments' H).
Defined.

(** X13. With [onlyNew] set, a node that carries a documentation comment is
    left as it is, whatever was inferred and however little the comment
    holds. *)
Theorem only_new_keeps_documented_nodes (options : Options)
    (comments : list Comment) (c : Comment)
    (inferred : option InferredJSDoc) :
  onlyNew options = true -> In c comments -> isJSDocComment c = true ->
  processNode options (Some comments) inferred = (Some comments, false).
Proof.
  intros Ho Hin Hc. unfold processNode. rewrite Ho, getJSDocBlocks_find.
  destruct (List.find isJSDocComment comments) as [j|] eqn:Hf.
  - rewrite bool_decide_eq_true_2 by eauto. reflexivity.
  - apply find_none_iff in Hf. rewrite Forall_forall in Hf.
    rewrite (Hf c) in Hc by (apply list_elem_of_In, Hin). discriminate.
Qed.

Lemma only_new_keeps_documented_nodes_witness :
  let options := {| onlyNew := true; overwriteAllJsdoc := false |} in
  let c := {| c_type := CommentBlock; c_value := "* " |} in
  onlyNew options = true /\ In c [c] /\ isJSDocComment c = true
  /\ processNode options (Some [c]) (Some addMetadata) = (Some [c], false).
Proof.
  intros options c.
  assert (H1 : onlyNew options = true) by reflexivity.
  assert (H2 : In c [c]) by (left; reflexivity).
  assert (H3 : isJSDocComment c = true) by reflexivity.
  repeat (split; [assumption|]).
  exact (only_new_keeps_documented_nodes options [c] c (Some addMetadata)
           H1 H2 H3).
Defined.

(** ** Default parameter texts and the placeholder test *)

Lemma split_nonempty sep s : split sep s <> [].
Proof.
  destruct s as [|c r]; simpl; [discriminate|].
  destruct (Ascii.eqb c sep); [discriminate|].
  destruct (split sep r); discriminate.
Qed.

Lemma join_cons_char sep c h t :
  join sep (String c h :: t) = String c (join sep (h :: t)).
Proof. destruct t; reflexivity. Qed.

(** Joining the segments of a split with the separator gives the string
    back. *)
Lemma join_split s : join " " (split " " s) = s.
Proof.
  induction s as [|c r IH]; [reflexivity|]. simpl split.
  destruct (Ascii.eqb_spec c " ") as [->|Hc].
  - pose proof (split_nonempty " " r) as Hne.
    destruct (split " " r) as [|h t] eqn:Hs; [congruence|].
    rewrite join_cons, IH. reflexivity.
  - pose proof (split_nonempty " " r) as Hne.
    destruct (split " " r) as [|h t] eqn:Hs; [congruence|].
    rewrite join_cons_char, IH. reflexivity.
Qed.

Lemma trimEnd_app_keep a b :
  isEmpty (trimEnd b) = false -> trimEnd (a +:+ b) = a +:+ trimEnd b.
Proof.
  intros Hb. induction a as [|x a IH]; [reflexivity|].
  change (String x a +:+ b) with (String x (a +:+ b)).
  change (String x a +:+ trimEnd b) with (String x (a +:+ trimEnd b)).
  simpl trimEnd. rewrite IH.
  assert (Hne : isEmpty (a +:+ trimEnd b) = false).
  { destruct a; [exact Hb | reflexivity]. }
  rewrite Hne, andb_false_r. reflexivity.
Qed.

Lemma trimEnd_app_fixed a b :
  trimEnd b = b -> isEmpty b = false ->
  trimEnd (a +:+ b) = a +:+ b /\ isEmpty (a +:+ b) = false.
Proof.
  intros Hb Hne. split.
  - rewrite trimEnd_app_keep by (rewrite Hb; exact Hne). rewrite Hb. reflexivity.
  - destruct a; [exact Hne | reflexivity].
Qed.

Lemma startsWith_app a b : startsWith (a +:+ b) a = true.
Proof.
  induction a as [|x a IH]; [reflexivity|].
  change (String x a +:+ b) with (String x (a +:+ b)).
  simpl. rewrite Ascii.eqb_refl. exact IH.
Qed.

Lemma includes_app_l a b : includes (a +:+ b) a = true.
Proof.
  destruct (a +:+ b) eqn:H; simpl; rewrite <- H, startsWith_app; reflexivity.
Qed.

Lemma includes_self b : includes b b = true.
Proof.
  assert (Hb : b +:+ "" = b).
  { induction b as [|x b IH]; [reflexivity|].
    change (String x (b +:+ "") = String x b). rewrite IH. reflexivity. }
  pose proof (startsWith_app b "") as H.
  rewrite Hb in H. destruct b; simpl in *; [reflexivity|].
  rewrite H. reflexivity.
Qed.

Lemma includes_app_r a b : includes (a +:+ b) b = true.
Proof.
  induction a as [|x a IH]; [apply includes_self|].
  change (String x a +:+ b) with (String x (a +:+ b)).
  simpl. rewrite IH. apply orb_true_r.
Qed.

(** The text of a parameter line after the tag: trimming leaves it as it
    is, whatever the type, the name and a description ending in a full
    stop are. *)
Lemma param_text_trimmed (ty nm d : string) :
  trim ("{" +:+ ty +:+ "} " +:+ nm +:+ " - " +:+ d +:+ ".")
  = "{" +:+ ty +:+ "} " +:+ nm +:+ " - " +:+ d +:+ ".".
Proof.
  unfold trim. simpl trimStart.
  destruct (trimEnd_app_fixed d "." eq_refl eq_refl) as [H1 N1].
  destruct (trimEnd_app_fixed " - " _ H1 N1) as [H2 N2].
  destruct (trimEnd_app_fixed nm _ H2 N2) as [H3 N3].
  destruct (trimEnd_app_fixed "} " _ H3 N3) as [H4 N4].
  destruct (trimEnd_app_fixed ty _ H4 N4) as [H5 N5].
  destruct (trimEnd_app_fixed "{" _ H5 N5) as [H6 _].
  exact H6.
Qed.

(** The entries of a group, from the lines of the input. *)
Lemma groupEntries_parseLine st l k :
  default [] (existingTags (parseLine st l) !! k) =
  default [] (existingTags st !! k)
  ++ (if filedUnder k l then [entryOfLine l] else []).
Proof.
  unfold parseLine, filedUnder, tagOfLine.
  destruct (startsWith (trim l) "@").
  - assert (Hpush : forall key e,
              default [] (pushEntry key e (existingTags st) !! k) =
              default [] (existingTags st !! k)
              ++ (if String.eqb key k then [e] else [])).
    { intros key e. unfold pushEntry.
      destruct (String.eqb_spec key k) as [->|Hne].
      - rewrite lookup_insert_eq. reflexivity.
      - rewrite lookup_insert_ne by exact Hne. rewrite app_nil_r. reflexivity. }
    destruct (has MANAGED_JSDOC_TAGS (tagNameOf (trim l))); simpl existingTags;
      rewrite Hpush; reflexivity.
  - rewrite app_nil_r.
    destruct (negb (isEmpty (trim l)) && negb (foundMainDescription st));
      reflexivity.
Qed.

Lemma groupEntries_fold E st k :
  default [] (existingTags (fold_left parseLine E st) !! k) =
  default [] (existingTags st !! k)
  ++ map entryOfLine (List.filter (filedUnder k) E).
Proof.
  revert st. induction E as [|l E IH]; intros st; simpl.
  - rewrite app_nil_r. reflexivity.
  - rewrite IH, groupEntries_parseLine, <- app_assoc.
    destruct (filedUnder k l); reflexivity.
Qed.

Lemma groupEntries_parseExisting E k :
  default [] (existingTags (parseExisting E) !! k)
  = map entryOfLine (List.filter (filedUnder k) E).
Proof. unfold parseExisting. rewrite groupEntries_fold. reflexivity. Qed.

(** The existing entry the parameter step finds: the entry of the first
    parameter line of the input whose content includes [{type} name]. *)
Lemma paramLine_first_match (pre post : list string) (line : string)
    (param : Param) :
  Forall (fun l => matchesParam param l = false) pre ->
  matchesParam param line = true ->
  existingTags (parseExisting (pre ++ line :: post)) !! "param"
  ≫= List.find (fun p => includes (content p) (paramSignature param))
  = Some (entryOfLine line).
Proof.
  intros Hpre Hline.
  assert (Hfind : forall o : option (list TagEntry),
            o ≫= List.find (fun p => includes (content p) (paramSignature param))
            = List.find (fun p => includes (content p) (paramSignature param))
                (default [] o)).
  { intros [g|]; reflexivity. }
  rewrite Hfind, groupEntries_parseExisting.
  apply andb_true_iff in Hline as [Hf Hi].
  induction Hpre as [|l pre Hl _ IH]; cbn [app List.filter].
  - rewrite Hf. cbn [map List.find]. rewrite Hi. reflexivity.
  - unfold matchesParam in Hl. destruct (filedUnder "param" l); [|exact IH].
    rewrite andb_true_l in Hl. cbn [map List.find]. rewrite Hl. exact IH.
Qed.

(** A parameter line ending in a full stop, as the parser reads it. *)
Lemma param_line_entry (ty nm d : string) :
  let text := "{" +:+ ty +:+ "} " +:+ nm +:+ " - " +:+ d +:+ "." in
  entryOfLine ("@param " +:+ text)
  = {| originalLine := "@param " +:+ text; content := text |}
  /\ filedUnder "param" ("@param " +:+ text) = true.
Proof.
  intros text.
  pose proof (param_text_trimmed ty nm d) as Hp. fold text in Hp.
  assert (Ht : trim ("@param " +:+ text) = "@param " +:+ text).
  { unfold trim. simpl trimStart. unfold trim in Hp. simpl trimStart in Hp.
    assert (Hn : isEmpty text = false) by reflexivity.
    destruct (trimEnd_app_fixed "@param " text Hp Hn) as [H _]. exact H. }
  split.
  - unfold entryOfLine. rewrite Ht. f_equal.
    unfold tagContentOf.
    assert (Hs : split " " ("@param " +:+ text) = "@param" :: split " " text)
      by reflexivity.
    rewrite Hs.
    change (slice1 ("@param" :: split " " text)) with (split " " text).
    rewrite join_split. exact Hp.
  - change ("@param " +:+ text)
      with (String "@" ("param" +:+ String " " text)).
    unfold filedUnder. rewrite (tagOfLine_word "param" text) by reflexivity.
    reflexivity.
Qed.

(** X14. A parameter line written from the engine's default description is
    recognized as a placeholder on the next run.  When that line is the
    first parameter line of the existing lines whose content includes the
    parameter's [{type} name], and the parameter is not [options] of type
    [object], the line the parameter step emits for the parameter is the
    canonical line with the metadata's current description, whatever else
    the existing lines hold. *)
Theorem default_param_text_refreshed (pre post : list string) (param : Param) :
  ~ (p_name param = "options" /\ p_type param = "object") ->
  Forall (fun line => matchesParam param line = false) pre ->
  paramLine
    (existingTags
       (parseExisting
          (pre
           ++ canonicalParamLine
                {| p_name := p_name param; p_type := p_type param;
                   p_description :=
                     getParamDescription (p_name param) (p_type param) |}
           :: post)))
    param
  = [canonicalParamLine param].
Proof.
  intros Hno Hpre.
  set (ty := p_type param). set (nm := p_name param).
  set (d := "The " +:+ ty +:+ " value of " +:+ nm).
  set (text := "{" +:+ ty +:+ "} " +:+ nm +:+ " - " +:+ d +:+ ".").
  assert (Hd : getParamDescription nm ty = d +:+ ".").
  { unfold getParamDescription, d.
    destruct (String.eqb_spec nm "options") as [Hn|Hn];
      destruct (String.eqb_spec ty "object") as [Ht|Ht];
      simpl andb; cbv iota;
      try (rewrite !append_assoc; reflexivity).
    exfalso. apply Hno. auto. }
  assert (Hline : canonicalParamLine
                    {| p_name := nm; p_type := ty;
                       p_description := getParamDescription nm ty |}
                  = "@param " +:+ text).
  { unfold canonicalParamLine, paramSignature, text. simpl p_name.
    simpl p_type. simpl p_description. rewrite Hd, !append_assoc.
    reflexivity. }
  rewrite Hline.
  destruct (param_line_entry ty nm d) as [Hentry Hfiled]. fold text in Hentry, Hfiled.
  assert (Hsig : includes text (paramSignature param) = true).
  { unfold text, paramSignature. fold ty nm.
    replace ("{" +:+ ty +:+ "} " +:+ nm +:+ " - " +:+ d +:+ ".")
      with (("{" +:+ ty +:+ "} " +:+ nm) +:+ " - " +:+ d +:+ ".")
      by (rewrite !append_assoc; reflexivity).
    apply includes_app_l. }
  assert (Hph : includes text (placeholderParamDesc param) = true).
  { unfold text, placeholderParamDesc, d. fold ty nm.
    replace ("{" +:+ ty +:+ "} " +:+ nm +:+ " - "
             +:+ ("The " +:+ ty +:+ " value of " +:+ nm) +:+ ".")
      with (("{" +:+ ty +:+ "} " +:+ nm +:+ " - ")
            +:+ "The " +:+ ty +:+ " value of " +:+ nm +:+ ".")
      by (rewrite !append_assoc; reflexivity).
    apply includes_app_r. }
  assert (Hm : matchesParam param ("@param " +:+ text) = true).
  { unfold matchesParam. rewrite Hfiled, Hentry. exact Hsig. }
  unfold paramLine.
  rewrite (paramLine_first_match pre post _ param Hpre Hm), Hentry.
  change (content {| originalLine := "@param " +:+ text; content := text |})
    with text.
  rewrite Hph. reflexivity.
Qed.

Lemma default_param_text_refreshed_witness :
  let param := {| p_name := "name"; p_type := "string";
                  p_description := "The full legal name." |} in
  let pre := ["Greets."; "@param {number} count - How many."] in
  let post := ["@see greetAll"] in
  ~ (p_name param = "options" /\ p_type param = "object")
  /\ Forall (fun line => matchesParam param line = false) pre
  /\ paramLine
       (existingTags
          (parseExisting
             (pre
              ++ canonicalParamLine
                   {| p_name := p_name param; p_type := p_type param;
                      p_description :=
                        getParamDescription (p_name param) (p_type param) |}
              :: post)))
       param
     = [canonicalParamLine param].
Proof.
  intros param pre post.
  assert (H1 : ~ (p_name param = "options" /\ p_type param = "object"))
    by (intros [H _]; discriminate H).
  assert (H2 : Forall (fun line => matchesParam param line = false) pre)
    by (repeat constructor).
  split; [exact H1|]. split; [exact H2|].
  exact (default_param_text_refreshed pre post param H1 H2).
Defined.

(** An earlier parameter line whose content includes the [{type} name] is
    found first, and the default line is not refreshed. *)
Example earlier_match_shadows_default :
  updateJSDocBlock
    ["@param {string} names - The string value of names.";
     "@param {string} name - The string value of name."]
    (functionMetadata "greet" "Description placeholder."
       [{| p_name := "name"; p_type := "string";
           p_description := "The full legal name." |}]
       {| r_type := "void"; r_description := "The result of the operation." |}
       [] [])
  = ["@param {string} name - s - The string value of names."].
Proof. vm_compute. reflexivity. Qed.

(** X15. The engine's special default for a parameter [options] of type
    [object] is not in the reconciler's placeholder catalog.  When the line
    written from it is the first parameter line of the existing lines whose
    content includes [{object} options], the line the parameter step emits
    for the parameter is that line again, whatever description the metadata
    then carries and whatever else the existing lines hold. *)
Theorem options_default_kept (pre post : list string) (d : string) :
  let param := {| p_name := "options"; p_type := "object";
                  p_description := d |} in
  Forall (fun line => matchesParam param line = false) pre ->
  paramLine
    (existingTags
       (parseExisting
          (pre
           ++ canonicalParamLine
                {| p_name := "options"; p_type := "object";
                   p_description := getParamDescription "options" "object" |}
           :: post)))
    param
  = ["@param {object} options - Configuration options."].
Proof.
  intros param Hpre.
  assert (Hm : matchesParam param
                 (canonicalParamLine
                    {| p_name := "options"; p_type := "object";
                       p_description :=
                         getParamDescription "options" "object" |}) = true)
    by (vm_compute; reflexivity).
  unfold paramLine.
  rewrite (paramLine_first_match pre post _ param Hpre Hm).
  vm_compute. reflexivity.
Qed.

Lemma options_default_kept_witness :
  let param := {| p_name := "options"; p_type := "object";
                  p_description := "The settings to apply." |} in
  let pre := ["Configures."; "@param {string} target - Where."] in
  let post := ["@see reset"] in
  Forall (fun line => matchesParam param line = false) pre
  /\ paramLine
       (existingTags
          (parseExisting
             (pre
              ++ canonicalParamLine
                   {| p_name := "options"; p_type := "object";
                      p_description :=
                        getParamDescription "options" "object" |}
              :: post)))
       param
     = ["@param {object} options - Configuration options."].
Proof.
  intros param pre post.
  assert (H : Forall (fun line => matchesParam param line = false) pre)
    by (repeat constructor).
  split; [exact H|].
  exact (options_default_kept pre post "The settings to apply." H).
Defined.

(** ** Reconciling against nothing *)

Lemma forEach_fmap_Some {A} (o : option (list A)) (f : A -> string) :
  forEach o (fun x => [Some (f x)]) = Some <$> forEach o (fun x => [f x]).
Proof.
  destruct o as [l|]; [|reflexivity]. simpl.
  induction l as [|x l IH]; [reflexivity|]. simpl. rewrite IH. reflexivity.
Qed.

Lemma forEach_ext {A B} (o : option (list A)) (f g : A -> list B) :
  (forall x, In x (default [] o) -> f x = g x) -> forEach o f = forEach o g.
Proof.
  destruct o as [l|]; [|reflexivity]. simpl. intros H.
  induction l as [|x l IH]; [reflexivity|]. simpl.
  rewrite (H x) by (left; reflexivity).
  rewrite IH by (intros y Hy; apply H; right; exact Hy). reflexivity.
Qed.

Lemma forEach_guard {A B} (o : option (list A)) (f : A -> list B) :
  (if hasLength o then forEach o f else []) = forEach o f.
Proof. destruct o as [[|x l]|]; reflexivity. Qed.

(** X16. Reconciling against an empty line list agrees with the fresh
    builder for function metadata that has a truthy description other than
    the placeholder, at least one parameter, no constructor description and
    only examples that contain a fence marker. *)
Theorem empty_existing_agrees_with_fresh (M : InferredJSDoc) (d : string) :
  truthy (name M) = false ->
  truthy (constructorDescription M) = false ->
  description M = Some d -> d <> "" -> d <> placeholderDesc ->
  hasLength (params M) = true ->
  Forall (fun ex => includes ex "```" = true) (default [] (examples M)) ->
  Some <$> updateJSDocBlock [] M = buildJSDocLines M.
Proof.
  intros Hn Hcd Hd Hne Hph Hps Hex.
  rewrite updateJSDocBlock_sections. cbn zeta.
  change (parseExisting []) with initialState.
  change (existingTags initialState) with (∅ : gmap string (list TagEntry)).
  change (mainDescription initialState) with EmptyString.
  assert (Hdesc : descriptionLines "" M = [d]).
  { unfold descriptionLines. rewrite Hd.
    apply truthyStr_true in Hne. apply negb_eqb_true in Hph.
    rewrite Hne, Hph. reflexivity. }
  rewrite Hdesc.
  assert (Hsep : separatorLines ∅ M [d] = [""]).
  { unfold separatorLines. rewrite Hps. reflexivity. }
  assert (Hclass : classLines ∅ M = []).
  { unfold classLines. rewrite Hn. reflexivity. }
  assert (Hctor : constructorLines ∅ M = []).
  { unfold constructorLines. unfold truthy in Hcd.
    destruct (constructorDescription M) as [cd|]; [|reflexivity].
    rewrite Hcd. reflexivity. }
  assert (Hpar : paramLines ∅ M
                 = forEach (params M) (fun p => [canonicalParamLine p])).
  { unfold paramLines. apply forEach_ext. intros p _. reflexivity. }
  assert (Hret : returnsLines ∅ M =
                 match returns M with
                 | Some r =>
                     if truthyStr (r_type r)
                        && negb (String.eqb (r_type r) "void")
                     then ["@returns {" +:+ r_type r +:+ "} "
                           +:+ r_description r]
                     else []
                 | None => []
                 end).
  { unfold returnsLines. destruct (returns M) as [r|]; [|reflexivity].
    destruct (_ && _); reflexivity. }
  assert (Hthr : throwsLines ∅ M
                 = forEach (throws M)
                     (fun thr => ["@throws {Error} " +:+ t_description thr])).
  { unfold throwsLines. apply forEach_ext. intros t _. reflexivity. }
  assert (Hexs : exampleLines ∅ M
                 = forEach (examples M) (fun ex => ["@example " +:+ ex])).
  { unfold exampleLines. apply forEach_ext. intros ex Hin.
    rewrite Forall_forall in Hex. unfold exampleLine.
    rewrite lookup_empty, (Hex ex) by (apply list_elem_of_In, Hin).
    reflexivity. }
  rewrite Hsep, Hclass, Hctor, Hpar, Hret, Hthr, Hexs.
  unfold buildJSDocLines. rewrite Hn. cbn zeta. rewrite Hd, Hps.
  rewrite !forEach_guard, !forEach_fmap_Some.
  unfold otherLines. rewrite lookup_empty.
  rewrite !fmap_app, <- !app_assoc, fmap_nil, app_nil_r.
  destruct (returns M) as [r|]; [|reflexivity].
  destruct (_ && _); reflexivity.
Qed.

Lemma empty_existing_agrees_with_fresh_witness :
  truthy (name scenarioA_metadata) = false
  /\ truthy (constructorDescription scenarioA_metadata) = false
  /\ description scenarioA_metadata = Some "AI text"
  /\ "AI text" <> "" /\ "AI text" <> placeholderDesc
  /\ hasLength (params scenarioA_metadata) = true
  /\ Forall (fun ex => includes ex "```" = true)
       (default [] (examples scenarioA_metadata))
  /\ Some <$> updateJSDocBlock [] scenarioA_metadata
     = buildJSDocLines scenarioA_metadata.
Proof.
  assert (H1 : truthy (name scenarioA_metadata) = false) by reflexivity.
  assert (H2 : truthy (constructorDescription scenarioA_metadata) = false)
    by reflexivity.
  assert (H3 : description scenarioA_metadata = Some "AI text") by reflexivity.
  assert (H4 : "AI text" <> "") by discriminate.
  assert (H5 : "AI text" <> placeholderDesc) by discriminate.
  assert (H6 : hasLength (params scenarioA_metadata) = true) by reflexivity.
  assert (H7 : Forall (fun ex => includes ex "```" = true)
                 (default [] (examples scenarioA_metadata))) by constructor.
  repeat (split; [assumption|]).
  exact (empty_existing_agrees_with_fresh scenarioA_metadata "AI text"
           H1 H2 H3 H4 H5 H6 H7).
Defined.

(** ** Reading the output again *)

Lemma filedUnder_word w rest k :
  noWhiteSpace w = true ->
  filedUnder k (String "@" (w +:+ String " " rest)) =
  String.eqb (if has MANAGED_JSDOC_TAGS (aliasOf w) then aliasOf w else "other")
    k.
Proof.
  intros Hw. unfold filedUnder. rewrite (tagOfLine_word _ _ Hw). reflexivity.
Qed.

Lemma filedUnder_entry tags k group e :
  wellFiled tags -> tags !! k = Some group -> In e group ->
  filedUnder k (originalLine e) = true.
Proof.
  intros Hwf Hk He. destruct (Hwf _ _ Hk) as [_ Hall].
  rewrite Forall_forall in Hall.
  destruct (Hall e) as (Ht & Hat & Hf); [apply list_elem_of_In, He|].
  unfold filedUnder, tagOfLine. rewrite Ht, Hat.
  unfold fileKey in Hf. rewrite Hf. apply String.eqb_refl.
Qed.

(** X17. The tag lines of the output are read back under the key of the
    step that wrote them: parameter lines (of the constructor and of the
    function) under [param], the returns line under [returns], throws lines
    under [throws], example lines under [example], and the lines passed
    through under [other]. *)
Theorem output_lines_file_back (E : list string) (M : InferredJSDoc) :
  let tags := existingTags (parseExisting E) in
  Forall (fun line => filedUnder "param" line = true)
    (forEach (constructorParams M) (constructorParamLine tags)
     ++ paramLines tags M)
  /\ Forall (fun line => filedUnder "returns" line = true) (returnsLines tags M)
  /\ Forall (fun line => filedUnder "throws" line = true) (throwsLines tags M)
  /\ Forall (fun line => filedUnder "example" line = true)
       (exampleLines tags M)
  /\ Forall (fun line => filedUnder "other" line = true) (otherLines tags).
Proof.
  intros tags. pose proof (parse_wellFiled E) as Hwf. fold tags in Hwf.
  assert (Hp : forall rest, filedUnder "param" ("@param " +:+ rest) = true).
  { intros rest. apply (filedUnder_word "param" rest). reflexivity. }
  assert (Hr : forall rest, filedUnder "returns" ("@returns " +:+ rest) = true).
  { intros rest. apply (filedUnder_word "returns" rest). reflexivity. }
  assert (Ht : forall rest, filedUnder "throws" ("@throws " +:+ rest) = true).
  { intros rest. apply (filedUnder_word "throws" rest). reflexivity. }
  assert (Hx : forall rest, filedUnder "example" ("@example " +:+ rest) = true).
  { intros rest. apply (filedUnder_word "example" rest). reflexivity. }
  repeat split.
  - apply Forall_app. split; apply forEach_Forall; intros param.
    + unfold constructorParamLine.
      destruct (tags !! "param" ≫= _) as [e|]; [destruct (negb _)|];
        apply Forall_one, Hp.
    + unfold paramLine.
      destruct (tags !! "param" ≫= _) as [e|]; [destruct (negb _)|];
        apply Forall_one, Hp.
  - unfold returnsLines. destruct (returns M) as [r|]; [|constructor].
    destruct (_ && _); [|constructor].
    destruct (tags !! "returns" ≫= _) as [e|]; [destruct (_ && _)|];
      apply Forall_one, Hr.
  - apply forEach_Forall. intros thr. unfold throwLine.
    destruct (tags !! "throws") as [group|] eqn:Hg; unfold mbind, option_bind;
      [|apply Forall_one, Ht].
    destruct (List.find _ group) as [e|] eqn:He; [|apply Forall_one, Ht].
    apply Forall_one. apply find_some in He as [He _].
    apply (filedUnder_entry _ _ _ _ Hwf Hg He).
  - apply forEach_Forall. intros ex. unfold exampleLine.
    destruct (_ && _); [|constructor]. apply Forall_one, Hx.
  - unfold otherLines. destruct (tags !! "other") as [group|] eqn:Hg;
      [|constructor].
    apply Forall_forall. intros line Hin. apply list_elem_of_In in Hin.
    apply in_map_iff in Hin as (e & <- & He).
    apply (filedUnder_entry _ _ _ _ Hwf Hg He).
Qed.

(** X18. Writing a block and reading it back is transparent to the
    reconciler: for a non-empty list of lines, each without line feed and
    without outer white space, the extractor finds in the written comment
    the lines followed by one empty line, and reconciling against that list
    gives what reconciling against the lines themselves gives. *)
Theorem write_back_transparent (lines : list string) (M : InferredJSDoc) :
  lines <> [] ->
  Forall (fun line => trim line = line /\ noLineFeed line = true) lines ->
  getJSDocBlocks
    (Some [{| c_type := CommentBlock;
              c_value := newCommentContent (Some <$> lines) |}])
  = Some (lines ++ [""])
  /\ updateJSDocBlock (lines ++ [""]) M = updateJSDocBlock lines M.
Proof.
  intros Hne Hall. split.
  - rewrite getJSDocBlocks_find.
    change (List.find isJSDocComment
              [{| c_type := CommentBlock;
                  c_value := newCommentContent (Some <$> lines) |}])
      with (Some {| c_type := CommentBlock;
                    c_value := newCommentContent (Some <$> lines) |}).
    cbv iota beta.
    change (c_value {| c_type := CommentBlock;
                       c_value := newCommentContent (Some <$> lines) |})
      with (newCommentContent (Some <$> lines)).
    rewrite normalizeComment_written by assumption. reflexivity.
  - unfold updateJSDocBlock.
    rewrite <- (parseExisting_normalized (lines ++ [""])),
            <- (parseExisting_normalized lines).
    rewrite List.filter_app. simpl List.filter.
    change (notBlank "") with false. cbv iota. rewrite app_nil_r. reflexivity.
Qed.

Lemma write_back_transparent_witness :
  ["Adds two numbers."; ""; "@returns {number} The sum."] <> []
  /\ Forall (fun line => trim line = line /\ noLineFeed line = true)
       ["Adds two numbers."; ""; "@returns {number} The sum."]
  /\ (getJSDocBlocks
        (Some [{| c_type := CommentBlock;
                  c_value :=
                    newCommentContent
                      (Some <$> ["Adds two numbers."; "";
                                 "@returns {number} The sum."]) |}])
      = Some (["Adds two numbers."; ""; "@returns {number} The sum."] ++ [""])
      /\ updateJSDocBlock
           (["Adds two numbers."; ""; "@returns {number} The sum."] ++ [""])
           addMetadata
         = updateJSDocBlock
             ["Adds two numbers."; ""; "@returns {number} The sum."]
             addMetadata).
Proof.
  assert (H1 : ["Adds two numbers."; ""; "@returns {number} The sum."] <> [])
    by discriminate.
  assert (H2 : Forall (fun line => trim line = line /\ noLineFeed line = true)
                 ["Adds two numbers."; ""; "@returns {number} The sum."])
    by (repeat constructor).
  split; [exact H1|]. split; [exact H2|].
  exact (write_back_transparent _ addMetadata H1 H2).
Defined.
